(** * PDF library manager: thumbnail cache, worker pipeline and viewer state

    A shallow embedding of [main.py] (classes [ThumbnailWorker] and
    [PDFViewer]) together with the properties of its specification.

    Conventions of the embedding.
    - A Python [str] is a [string]; its characters are the code points
      U+0000..U+00FF, so [str.encode()] (UTF-8) is total on them.
    - A Python [int] is a [Z]; a Python [float] is the rational number it
      denotes, and every float operation rounds its exact result to the
      nearest binary64 value (ties to even), see [round64].
    - Code that may raise returns an [outcome]; [try]/[except] is a match
      on it.  The file system, the PDF engine and the image codec are the
      fields of a [world]. *)

From Stdlib Require Import ZArith QArith Qpower Qround List String Ascii Bool Lia Lqa.
From Stdlib Require Import DecimalString DecimalZ DecimalPos Sorting.Sorted Sorting.Permutation.
From Stdlib Require Floats Uint63.
Import ListNotations.

Local Open Scope string_scope.
Local Open Scope list_scope.
Local Open Scope Z_scope.

(** ** Python strings *)

Module PyStr.

(** [all(P(c) for c in s)] *)
Fixpoint all_chars (P : ascii -> bool) (s : string) : bool :=
  match s with
  | EmptyString => true
  | String c s' => P c && all_chars P s'
  end.

(** ["".join(c for c in s if P(c))] *)
Fixpoint filter_chars (P : ascii -> bool) (s : string) : string :=
  match s with
  | EmptyString => EmptyString
  | String c s' => if P c then String c (filter_chars P s') else filter_chars P s'
  end.

Definition code_point (c : ascii) : Z := Z.of_N (N_of_ascii c).

Definition in_range (lo hi : Z) (c : ascii) : bool :=
  (lo <=? code_point c) && (code_point c <=? hi).

(** [c.isalnum()] on U+0000..U+00FF: the ASCII digits and letters, and the
    Latin-1 letters and numeric characters of the Unicode database. *)
Definition isalnum (c : ascii) : bool :=
  existsb (fun r => in_range (fst r) (snd r) c)
    [(48, 57); (65, 90); (97, 122); (170, 170); (178, 179); (181, 181);
     (185, 186); (188, 190); (192, 214); (216, 246); (248, 255)].

(** [c.isspace()] on U+0000..U+00FF. *)
Definition isspace (c : ascii) : bool :=
  existsb (fun r => in_range (fst r) (snd r) c)
    [(9, 13); (28, 32); (133, 133); (160, 160)].

(** [s.rstrip()]: trailing white space removed. *)
Fixpoint rstrip (s : string) : string :=
  match s with
  | EmptyString => EmptyString
  | String c s' =>
      match rstrip s' with
      | EmptyString => if isspace c then EmptyString else String c EmptyString
      | t => String c t
      end
  end.

(** [str(n)] for an [int]. *)
Definition str_int (n : Z) : string := NilZero.string_of_int (Z.to_int n).

(** [s.rfind(".")], [None] for -1. *)
Fixpoint rfind_dot (s : string) : option nat :=
  match s with
  | EmptyString => None
  | String c s' =>
      match rfind_dot s' with
      | Some i => Some (S i)
      | None => if Ascii.eqb c "." then Some O else None
      end
  end.

(** [s.split("/")] *)
Fixpoint split_slash (s : string) : list string :=
  match s with
  | EmptyString => [EmptyString]
  | String c s' =>
      if Ascii.eqb c "/" then EmptyString :: split_slash s'
      else match split_slash s' with
           | [] => [String c EmptyString]
           | p :: ps => String c p :: ps
           end
  end.

(** [s.encode()]: UTF-8, one byte below U+0080 and two bytes from there on. *)
Fixpoint encode (s : string) : list Z :=
  match s with
  | EmptyString => []
  | String c s' =>
      let n := code_point c in
      if n <? 128 then n :: encode s'
      else (192 + n / 64) :: (128 + n mod 64) :: encode s'
  end.

End PyStr.

(** ** [hashlib.md5] (RFC 1321) on byte lists, words as [Z] modulo 2^32 *)

Module MD5.

Definition K : list Z :=
  [3614090360; 3905402710; 606105819; 3250441966; 4118548399; 1200080426;
   2821735955; 4249261313; 1770035416; 2336552879; 4294925233; 2304563134;
   1804603682; 4254626195; 2792965006; 1236535329; 4129170786; 3225465664;
   643717713; 3921069994; 3593408605; 38016083; 3634488961; 3889429448;
   568446438; 3275163606; 4107603335; 1163531501; 2850285829; 4243563512;
   1735328473; 2368359562; 4294588738; 2272392833; 1839030562; 4259657740;
   2763975236; 1272893353; 4139469664; 3200236656; 681279174; 3936430074;
   3572445317; 76029189; 3654602809; 3873151461; 530742520; 3299628645;
   4096336452; 1126891415; 2878612391; 4237533241; 1700485571; 2399980690;
   4293915773; 2240044497; 1873313359; 4264355552; 2734768916; 1309151649;
   4149444226; 3174756917; 718787259; 3951481745].

Definition S : list Z :=
  [7; 12; 17; 22; 7; 12; 17; 22; 7; 12; 17; 22; 7; 12; 17; 22;
   5; 9; 14; 20; 5; 9; 14; 20; 5; 9; 14; 20; 5; 9; 14; 20;
   4; 11; 16; 23; 4; 11; 16; 23; 4; 11; 16; 23; 4; 11; 16; 23;
   6; 10; 15; 21; 6; 10; 15; 21; 6; 10; 15; 21; 6; 10; 15; 21].

Definition w32 (x : Z) : Z := x mod 2 ^ 32.
Definition not32 (x : Z) : Z := Z.lxor x (2 ^ 32 - 1).
Definition rotl32 (x s : Z) : Z :=
  Z.lor (w32 (Z.shiftl x s)) (Z.shiftr x (32 - s)).

Definition state : Type := Z * Z * Z * Z.

Definition step (M : list Z) (st : state) (i : nat) : state :=
  let '(a, b, c, d) := st in
  let zi := Z.of_nat i in
  let '(f, g) :=
    if zi <? 16 then (Z.lor (Z.land b c) (Z.land (not32 b) d), zi)
    else if zi <? 32 then (Z.lor (Z.land d b) (Z.land (not32 d) c), (5 * zi + 1) mod 16)
    else if zi <? 48 then (Z.lxor (Z.lxor b c) d, (3 * zi + 5) mod 16)
    else (Z.lxor c (Z.lor b (not32 d)), (7 * zi) mod 16) in
  let f' := w32 (f + a + nth i K 0 + nth (Z.to_nat g) M 0) in
  (d, w32 (b + rotl32 f' (nth i S 0)), b, c).

(** Little-endian words of a block of bytes. *)
Fixpoint words (n : nat) (bytes : list Z) : list Z :=
  match n with
  | O => []
  | Datatypes.S n' =>
      match bytes with
      | b0 :: b1 :: b2 :: b3 :: rest =>
          (b0 + 256 * b1 + 65536 * b2 + 16777216 * b3) :: words n' rest
      | _ => []
      end
  end.

Definition block (st : state) (bytes : list Z) : state :=
  let M := words 16 bytes in
  let '(a0, b0, c0, d0) := st in
  let '(a, b, c, d) := fold_left (step M) (seq 0 64) st in
  (w32 (a0 + a), w32 (b0 + b), w32 (c0 + c), w32 (d0 + d)).

Fixpoint blocks (n : nat) (st : state) (bytes : list Z) : state :=
  match n with
  | O => st
  | Datatypes.S n' => blocks n' (block st (firstn 64 bytes)) (skipn 64 bytes)
  end.

Definition le_bytes (n : nat) (x : Z) : list Z :=
  map (fun k => (x / 256 ^ Z.of_nat k) mod 256) (seq 0 n).

Definition pad (msg : list Z) : list Z :=
  let len := Z.of_nat (List.length msg) in
  let zeros := Z.to_nat ((55 - len) mod 64) in
  msg ++ 128 :: repeat 0 zeros ++ le_bytes 8 ((8 * len) mod 2 ^ 64).

(** [hashlib.md5(msg).digest()] *)
Definition digest (msg : list Z) : list Z :=
  let p := pad msg in
  let '(a, b, c, d) :=
    blocks (List.length p / 64) (1732584193, 4023233417, 2562383102, 271733878) p in
  le_bytes 4 a ++ le_bytes 4 b ++ le_bytes 4 c ++ le_bytes 4 d.

Definition hex_digit (n : Z) : ascii :=
  nth (Z.to_nat n)
    ["0"; "1"; "2"; "3"; "4"; "5"; "6"; "7"; "8"; "9"; "a"; "b"; "c"; "d"; "e"; "f"]%char
    "0"%char.

Fixpoint hex (bytes : list Z) : string :=
  match bytes with
  | [] => EmptyString
  | b :: rest => String (hex_digit (b / 16)) (String (hex_digit (b mod 16)) (hex rest))
  end.

(** [hashlib.md5(msg).hexdigest()] *)
Definition hexdigest (msg : list Z) : string := hex (digest msg).

End MD5.

(** ** Python floats: binary64 with round-to-nearest-even

    A float is the rational it denotes.  [round64 x] is the binary64 value
    nearest to [x] (ties to even, gradual underflow below 2^-1022) for
    [|x| < 2^1024]; the values computed here never exceed 100. *)

Module Float.

Definition pow2 (e : Z) : Q := Qpower 2 e.

(** [floor (log2 x)] for [0 < x]. *)
Definition ilog2 (x : Q) : Z :=
  let d := Z.log2 (Qnum x) - Z.log2 (Z.pos (Qden x)) in
  if Qle_bool (pow2 d) x then d else d - 1.

(** The exponent of the unit in the last place of [x]: 53 bits of
    precision, smallest exponent -1074. *)
Definition exponent (x : Q) : Z := Z.max (ilog2 x - 52) (-1074).

(** Nearest integer, ties to even. *)
Definition rne (x : Q) : Z :=
  let f := Qfloor x in
  match Qcompare (x - inject_Z f) (1 # 2) with
  | Lt => f
  | Gt => f + 1
  | Eq => if Z.even f then f else f + 1
  end.

Definition round_pos (x : Q) : Q :=
  let e := exponent x in Qred (inject_Z (rne (x / pow2 e)) * pow2 e).

Definition round64 (x : Q) : Q :=
  let x := Qred x in
  match Qcompare x 0 with
  | Eq => 0
  | Gt => round_pos x
  | Lt => - round_pos (- x)
  end%Q.

(** [x * y] and [x / y] on floats. *)
Definition fmul (x y : Q) : Q := round64 (x * y).
Definition fdiv (x y : Q) : Q := round64 (x / y).

(** [float(n)] *)
Definition of_int (n : Z) : Q := round64 (inject_Z n).

(** [int(x)]: truncation toward zero. *)
Definition py_int (x : Q) : Z := Z.quot (Qnum x) (Z.pos (Qden x)).

(** [min(a, b)] and [max(a, b)] as the builtins choose: the first argument
    unless the second is strictly smaller (greater). *)
Definition py_min (a b : Q) : Q := if Qle_bool a b then a else b.
Definition py_max (a b : Q) : Q := if Qle_bool b a then a else b.

(** The literals of the source. *)
Definition lit_0_1 : Q := round64 (1 # 10).
Definition lit_1_2 : Q := round64 (12 # 10).
Definition lit_2_5 : Q := round64 (25 # 10).
Definition lit_5_0 : Q := round64 5.
Definition lit_1_0 : Q := round64 1.

End Float.

(** ** Exceptions and the state of the outside world *)

Record exn : Type := Exn { exn_type : string; exn_msg : string }.

Inductive outcome (A : Type) : Type :=
| Return (a : A)
| Raise (e : exn).
Arguments Return {A} a.
Arguments Raise {A} e.

Definition ZeroDivisionError : exn := Exn "ZeroDivisionError" "division by zero".
Definition IndexError : exn := Exn "IndexError" "page not in document".
Definition RenderError : exn := Exn "RuntimeError" "cannot render page".
Definition DecodeError : exn := Exn "UnidentifiedImageError" "cannot identify image file".
Definition WriteError : exn := Exn "OSError" "cannot write file".

(** A page of a PDF document: what identifies its content, and whether the
    engine can rasterize it. *)
Record page : Type := Page { page_content : N; renders : bool }.

(** A [fitz.Document]. *)
Record document : Type := Document { doc_name : string; doc_pages : list page }.

(** A PIL image, by the call that made it. *)
Inductive image : Type :=
| Image_new (size : nat * nat) (color : string)   (* [Image.new('RGB', size, color)] *)
| Page_thumbnail (p : page) (bound : nat * nat).  (* page [p] rasterized and scaled into [bound] *)

(** The bytes of a file of the cache directory: the PNG encoding of an
    image, or bytes that do not decode. *)
Inductive file_data : Type :=
| PNG (img : image)
| Garbage.

(** [os.stat_result]; [st_mtime] is carried as the text [str()] gives for
    the float, the form in which the f-string of [get_cache_filename] uses
    it. *)
Record stat_result : Type := Stat { st_mtime : string }.

Inductive signal : Type :=
| thumbnail_ready (pdf_path : string) (thumbnail : image)
| progress_updated (value : Z).

Inductive dialog : Type :=
| Critical (title text : string).

Record world : Type := World {
  os_stat : string -> outcome stat_result;   (* [os.stat(path)] *)
  fitz_open : string -> outcome document;    (* what [fitz.open(path)] yields *)
  cache_files : string -> option file_data;  (* the files of the cache directory *)
  cache_writable : bool;                     (* whether [img.save] succeeds *)
  open_docs : list string;                   (* documents opened and not closed *)
  signals : list signal;                     (* signals emitted so far, in order *)
  dialogs : list dialog                      (* message boxes shown so far *)
}.



(** *** A monad for code that reads and writes the world and may raise *)

Definition M (A : Type) : Type := world -> outcome A * world.

Definition ret {A} (a : A) : M A := fun w => (Return a, w).

Definition raise {A} (e : exn) : M A := fun w => (Raise e, w).

Definition bind {A B} (c : M A) (k : A -> M B) : M B :=
  fun w =>
    match c w with
    | (Return a, w') => k a w'
    | (Raise e, w') => (Raise e, w')
    end.

Notation "x <- c ;; k" := (bind c (fun x => k))
  (at level 61, c at next level, right associativity).

(** [try: body  except Exception as e: handler e] *)
Definition try_except {A} (body : M A) (handler : exn -> M A) : M A :=
  fun w =>
    match body w with
    | (Return a, w') => (Return a, w')
    | (Raise e, w') => handler e w'
    end.

(** [try: body  finally: fin] *)
Definition try_finally {A} (body : M A) (fin : M unit) : M A :=
  fun w =>
    match body w with
    | (r, w') =>
        match fin w' with
        | (Return _, w'') => (r, w'')
        | (Raise e, w'') => (Raise e, w'')
        end
    end.

Definition lift {A} (r : outcome A) : M A := fun w => (r, w).

Definition set_cache_file (w : world) (path : string) (d : file_data) : world :=
  World (os_stat w) (fitz_open w)
        (fun p => if String.eqb p path then Some d else cache_files w p)
        (cache_writable w) (open_docs w) (signals w) (dialogs w).

Definition set_open_docs (w : world) (l : list string) : world :=
  World (os_stat w) (fitz_open w) (cache_files w) (cache_writable w) l
        (signals w) (dialogs w).

(** [signal.emit(...)] *)
Definition emit (s : signal) : M unit :=
  fun w =>
    (Return tt,
     World (os_stat w) (fitz_open w) (cache_files w) (cache_writable w)
           (open_docs w) (signals w ++ [s]) (dialogs w)).

(** [QMessageBox.critical(self, title, text)] *)
Definition QMessageBox_critical (title text : string) : M unit :=
  fun w =>
    (Return tt,
     World (os_stat w) (fitz_open w) (cache_files w) (cache_writable w)
           (open_docs w) (signals w) (dialogs w ++ [Critical title text])).

(** *** The PDF engine (PyMuPDF) *)

(** [fitz.open(path)] *)
Definition fitz_open_doc (pdf_path : string) : M document :=
  fun w =>
    match fitz_open w pdf_path with
    | Return doc => (Return doc, set_open_docs w (doc_name doc :: open_docs w))
    | Raise e => (Raise e, w)
    end.

(** [len(doc)] *)
Definition len (doc : document) : Z := Z.of_nat (List.length (doc_pages doc)).

(** [bool(doc)], which Python takes from [len(doc)]. *)
Definition truthy (doc : document) : bool := negb (len doc =? 0).

Fixpoint remove_first (x : string) (l : list string) : list string :=
  match l with
  | [] => []
  | y :: l' => if String.eqb x y then l' else y :: remove_first x l'
  end.

(** [doc.close()] *)
Definition close (doc : document) : M unit :=
  fun w => (Return tt, set_open_docs w (remove_first (doc_name doc) (open_docs w))).

(** [doc[i]]: page [i] for [i < len(doc)], negative numbers counting from
    the end; [IndexError] when the document has no such page. *)
Definition getitem (doc : document) (i : Z) : outcome page :=
  if i <? len doc then
    match nth_error (doc_pages doc) (Z.to_nat (i mod len doc)) with
    | Some p => Return p
    | None => Raise IndexError
    end
  else Raise IndexError.

(** *** Paths *)

(** [os.path.join(a, b)] (POSIX) *)
Definition os_path_join (a b : string) : string :=
  if String.prefix "/" b then b
  else if String.eqb a "" || String.eqb (substring (String.length a - 1) 1 a) "/" then a ++ b
  else a ++ "/" ++ b.

(** [Path(p).name]: the last component of the path. *)
Definition path_name (p : string) : string :=
  last (filter (fun x => negb (String.eqb x "") && negb (String.eqb x "."))
               (PyStr.split_slash p)) "".

(** [Path(p).stem]: the name without its last suffix. *)
Definition path_stem (p : string) : string :=
  let name := path_name p in
  match PyStr.rfind_dot name with
  | Some i =>
      if (0 <? i)%nat && (i <? String.length name - 1)%nat
      then substring 0 i name else name
  | None => name
  end.

(** [cache_dir / cache_filename] *)
Definition path_div (dir name : string) : string := dir ++ "/" ++ name.

(** ** [class ThumbnailWorker] *)

Record ThumbnailWorker : Type := Worker {
  pdf_files : list string;
  folder_path : string;
  cache_dir : string;
  thumbnail_size : nat * nat;   (* width and height in pixels; the library passes (100, 140) *)
  page_num : Z;
  is_running : bool
}.

(** [ThumbnailWorker.__init__] *)
Definition ThumbnailWorker_init (pdf_files : list string) (folder_path cache_dir : string)
    (thumbnail_size : nat * nat) (page_num : Z) : ThumbnailWorker :=
  Worker pdf_files folder_path cache_dir thumbnail_size page_num true.

(** [c.isalnum() or c in ('-', '_')] *)
Definition safe_char (c : ascii) : bool :=
  PyStr.isalnum c || existsb (Ascii.eqb c) ["-"; "_"]%char.

(** [f"{pdf_path}_{file_stat.st_mtime}_{page_num}"] *)
Definition cache_key (pdf_path mtime : string) (page_num : Z) : string :=
  pdf_path ++ "_" ++ mtime ++ "_" ++ PyStr.str_int page_num.

(** [hashlib.md5(cache_key.encode()).hexdigest()[:12]] *)
Definition hash_name (cache_key : string) : string :=
  substring 0 12 (MD5.hexdigest (PyStr.encode cache_key)).

(** ["".join(c for c in pdf_filename if c.isalnum() or c in ('-', '_')).rstrip()] *)
Definition safe_filename (pdf_filename : string) : string :=
  PyStr.rstrip (PyStr.filter_chars safe_char pdf_filename).

Definition get_cache_filename (self : ThumbnailWorker) (pdf_path : string)
    (page_num : Z) : M string :=
  try_except
    (file_stat <- (fun w => (os_stat w pdf_path, w)) ;;
     let cache_key := cache_key pdf_path (st_mtime file_stat) page_num in
     let hash_name := hash_name cache_key in
     let pdf_filename := path_stem pdf_path in
     let safe_filename := safe_filename pdf_filename in
     let cache_filename :=
       (safe_filename ++ "_" ++ hash_name ++ "_p" ++ PyStr.str_int page_num ++ ".png")%string in
     ret (path_div (cache_dir self) cache_filename))
    (fun _ =>
     let pdf_filename := path_name pdf_path in
     let safe_filename := safe_filename pdf_filename in
     let cache_filename :=
       (safe_filename ++ "_p" ++ PyStr.str_int page_num ++ ".png")%string in
     ret (path_div (cache_dir self) cache_filename)).

Definition create_placeholder_thumbnail (self : ThumbnailWorker) : M image :=
  ret (Image_new (thumbnail_size self) "lightgray").

(** [cache_file.exists()] *)
Definition exists_ (cache_file : string) : M bool :=
  fun w => (Return (match cache_files w cache_file with Some _ => true | None => false end), w).

(** [Image.open(cache_file)] *)
Definition Image_open (cache_file : string) : M image :=
  fun w =>
    match cache_files w cache_file with
    | Some (PNG img) => (Return img, w)
    | _ => (Raise DecodeError, w)
    end.

(** [img.save(cache_file, "PNG", optimize=True)] *)
Definition Image_save (img : image) (cache_file : string) : M unit :=
  fun w =>
    if cache_writable w then (Return tt, set_cache_file w cache_file (PNG img))
    else (Raise WriteError, w).

(** [page.get_pixmap], [pix.tobytes("ppm")], [Image.open] of these bytes
    and [img.thumbnail(size, LANCZOS)]. *)
Definition render_thumbnail (p : page) (size : nat * nat) : M image :=
  if renders p then ret (Page_thumbnail p size) else raise RenderError.

(** The first lines of [generate_thumbnail]: the cached image when the
    cache file exists and decodes, nothing otherwise. *)
Definition cache_lookup (cache_file : string) : M (option image) :=
  present <- exists_ cache_file ;;
  if present then
    try_except (img <- Image_open cache_file ;; ret (Some img))
               (fun _ => ret None)
  else ret None.

(** The page [generate_thumbnail] renders for a request of [page_num]. *)
Definition chosen_page (doc : document) (page_num : Z) : Z :=
  if page_num >=? len doc then Z.min (len doc - 1) 0 else page_num.

(** The body of the [try] of [generate_thumbnail] once the document is open. *)
Definition render_and_store (self : ThumbnailWorker) (cache_file : string)
    (doc : document) (page_num : Z) : M image :=
  let page_num := chosen_page doc page_num in
  page <- lift (getitem doc page_num) ;;
  img <- render_thumbnail page (thumbnail_size self) ;;
  _ <- Image_save img cache_file ;;
  ret img.

(** What [generate_thumbnail] does after a cache miss. *)
Definition regenerate (self : ThumbnailWorker) (cache_file pdf_path : string)
    (page_num : Z) : M image :=
  fun w =>
    match fitz_open_doc pdf_path w with
    | (Raise _, w1) => create_placeholder_thumbnail self w1
    | (Return doc, w1) =>
        try_finally
          (try_except (render_and_store self cache_file doc page_num)
                      (fun _ => create_placeholder_thumbnail self))
          (if truthy doc then close doc else ret tt) w1
    end.

Definition generate_thumbnail (self : ThumbnailWorker) (pdf_path : string)
    (page_num : Z) : M image :=
  cache_file <- get_cache_filename self pdf_path page_num ;;
  cached <- cache_lookup cache_file ;;
  match cached with
  | Some img => ret img
  | None => regenerate self cache_file pdf_path page_num
  end.

(** [int(done / total * 100)] for a non-zero [total]: the quotient of two
    [int]s is the float nearest to the exact quotient. *)
Definition percent (done total : Z) : Z :=
  Float.py_int (Float.fmul (Float.round64 (inject_Z done / inject_Z total))
                           (Float.of_int 100)).

(** [int((i + 1) / total * 100)]; the division raises on a zero total. *)
Definition progress (done total : Z) : outcome Z :=
  if total =? 0 then Raise ZeroDivisionError else Return (percent done total).



Definition stop (self : ThumbnailWorker) : ThumbnailWorker :=
  Worker (pdf_files self) (folder_path self) (cache_dir self)
         (thumbnail_size self) (page_num self) false.

(** *** [run] beside a thread that may call [stop]

    The worker thread advances through the points of the loop body; another
    thread may call [stop()] between any two of them. *)

Inductive point : Type :=
| AtCheck                      (* about to read [is_running] *)
| AtGenerate                   (* flag read, about to call [generate_thumbnail] *)
| AtReady (thumbnail : image)  (* about to emit [thumbnail_ready] *)
| AtProgress                   (* about to emit [progress_updated] *)
| Finished                     (* [run] has returned *)
| Failed (e : exn).            (* [run] has raised *)

Record thread : Type := Thread {
  worker : ThumbnailWorker;
  at_point : point;
  index : Z;
  pending : list string;
  env : world
}.

Inductive action : Type := Work | Stop.

Definition start (self : ThumbnailWorker) (w : world) : thread :=
  Thread self AtCheck 0 (pdf_files self) w.

Definition work (t : thread) : thread :=
  let self := worker t in
  let total := Z.of_nat (List.length (pdf_files self)) in
  match at_point t, pending t with
  | AtCheck, [] => Thread self Finished (index t) [] (env t)
  | AtCheck, _ :: _ =>
      if negb (is_running self)
      then Thread self Finished (index t) (pending t) (env t)
      else Thread self AtGenerate (index t) (pending t) (env t)
  | AtGenerate, pdf_file :: _ =>
      let pdf_path := os_path_join (folder_path self) pdf_file in
      match generate_thumbnail self pdf_path (page_num self) (env t) with
      | (Return thumbnail, w) => Thread self (AtReady thumbnail) (index t) (pending t) w
      | (Raise e, w) => Thread self (Failed e) (index t) (pending t) w
      end
  | AtReady thumbnail, pdf_file :: _ =>
      let pdf_path := os_path_join (folder_path self) pdf_file in
      Thread self AtProgress (index t) (pending t)
             (snd (emit (thumbnail_ready pdf_path thumbnail) (env t)))
  | AtProgress, _ :: rest =>
      match progress (index t + 1) total with
      | Return value =>
          Thread self AtCheck (index t + 1) rest
                 (snd (emit (progress_updated value) (env t)))
      | Raise e => Thread self (Failed e) (index t) (pending t) (env t)
      end
  | _, _ => t
  end.

Definition act (t : thread) (a : action) : thread :=
  match a with
  | Work => work t
  | Stop => Thread (stop (worker t)) (at_point t) (index t) (pending t) (env t)
  end.

(** The thread after a schedule of worker steps and [stop()] calls. *)
Definition exec (schedule : list action) (t : thread) : thread :=
  fold_left act schedule t.


Definition is_ready (s : signal) : bool :=
  match s with thumbnail_ready _ _ => true | progress_updated _ => false end.




(** ** [class PDFViewer] *)

(** What the image label shows. *)
Inductive label : Type :=
| Text (s : string)
| Pixmap (p : page) (zoom_factor : Q).

Record PDFViewer : Type := Viewer {
  current_pdf_doc : option document;
  current_page : Z;
  total_pages : Z;
  viewer_zoom : Q;
  selected_pdf : option string;
  image_label : label;
  page_label : string;
  page_entry : string
}.

(** [PDFViewer.__init__] with the widgets of [init_ui]. *)
Definition PDFViewer_init : PDFViewer :=
  Viewer None 0 0 Float.lit_1_0 None
         (Text "Select a PDF from the list to view it here") "Page: - / -" "".

Definition update_page_info (self : PDFViewer) : PDFViewer :=
  if total_pages self >? 0 then
    Viewer (current_pdf_doc self) (current_page self) (total_pages self)
           (viewer_zoom self) (selected_pdf self) (image_label self)
           ("Page: " ++ PyStr.str_int (current_page self + 1) ++ " / "
              ++ PyStr.str_int (total_pages self))
           (PyStr.str_int (current_page self + 1))
  else
    Viewer (current_pdf_doc self) (current_page self) (total_pages self)
           (viewer_zoom self) (selected_pdf self) (image_label self)
           "Page: - / -" "".

Definition display_current_page (self : PDFViewer) : PDFViewer :=
  match current_pdf_doc self with
  | None => self
  | Some doc =>
      if negb (truthy doc) then self
      else
        (* try: ... except Exception as e: print(...) *)
        match getitem doc (current_page self) with
        | Raise _ => self
        | Return p =>
            let zoom_factor := Float.fmul (viewer_zoom self) Float.lit_2_5 in
            if renders p then
              update_page_info
                (Viewer (current_pdf_doc self) (current_page self) (total_pages self)
                        (viewer_zoom self) (selected_pdf self) (Pixmap p zoom_factor)
                        (page_label self) (page_entry self))
            else self
        end
  end.

Definition set_selected_pdf (self : PDFViewer) (pdf_path : string) : PDFViewer :=
  Viewer (current_pdf_doc self) (current_page self) (total_pages self)
         (viewer_zoom self) (Some pdf_path) (image_label self)
         (page_label self) (page_entry self).

Definition set_viewer_zoom (self : PDFViewer) (z : Q) : PDFViewer :=
  Viewer (current_pdf_doc self) (current_page self) (total_pages self)
         z (selected_pdf self) (image_label self)
         (page_label self) (page_entry self).

(** [display_pdf] returns the viewer it leaves behind. *)
Definition display_pdf (self : PDFViewer) (pdf_path : string) : M PDFViewer :=
  let self := set_selected_pdf self pdf_path in
  try_except
    (doc <- fitz_open_doc pdf_path ;;
     _ <- match current_pdf_doc self with
          | Some old => if truthy old then close old else ret tt
          | None => ret tt
          end ;;
     let total := len doc in
     ret (display_current_page
            (Viewer (Some doc) (Z.min 0 (total - 1)) total
                    (viewer_zoom self) (selected_pdf self) (image_label self)
                    (page_label self) (page_entry self))))
    (fun e =>
     _ <- QMessageBox_critical "Error" ("Could not display PDF: " ++ exn_msg e) ;;
     ret self).

(** [if self.selected_pdf:] *)
Definition has_selection (self : PDFViewer) : bool :=
  match selected_pdf self with
  | Some p => negb (String.eqb p "")
  | None => false
  end.

Definition redisplay (self : PDFViewer) : PDFViewer :=
  if has_selection self then display_current_page self else self.

Definition zoom_in (self : PDFViewer) : PDFViewer :=
  redisplay (set_viewer_zoom self
               (Float.py_min (Float.fmul (viewer_zoom self) Float.lit_1_2) Float.lit_5_0)).

Definition zoom_out (self : PDFViewer) : PDFViewer :=
  redisplay (set_viewer_zoom self
               (Float.py_max (Float.fdiv (viewer_zoom self) Float.lit_1_2) Float.lit_0_1)).

Definition zoom_reset (self : PDFViewer) : PDFViewer :=
  redisplay (set_viewer_zoom self Float.lit_1_0).

Inductive zoom_op : Type := ZoomIn | ZoomOut | ZoomReset.

Definition zoom (self : PDFViewer) (op : zoom_op) : PDFViewer :=
  match op with
  | ZoomIn => zoom_in self
  | ZoomOut => zoom_out self
  | ZoomReset => zoom_reset self
  end.

(** ** Notions used by the statements *)

(** [img.size] of an image made by [Image.new]; the size of a page
    thumbnail follows from the aspect ratio of the page, which is not
    modelled. *)
Definition image_size (img : image) : option (nat * nat) :=
  match img with
  | Image_new size _ => Some size
  | Page_thumbnail _ _ => None
  end.



Definition hex_char (c : ascii) : bool :=
  PyStr.in_range 48 57 c || PyStr.in_range 97 102 c.

Definition int_char (c : ascii) : bool :=
  PyStr.in_range 48 57 c || Ascii.eqb c "-".


Fixpoint Zseq (start : Z) (n : nat) : list Z :=
  match n with
  | O => []
  | S n' => start :: Zseq (start + 1) n'
  end.


Definition zoom_ok (z : Q) : Prop :=
  (Float.lit_0_1 <= z /\ z <= Float.lit_5_0)%Q.

(** *** The kernel's binary64 floats, to compare [round64] with *)

Module Kernel.

(** The rational a finite float denotes. *)
Definition value (x : PrimFloat.float) : Q :=
  match FloatOps.Prim2SF x with
  | SpecFloat.S754_finite s m e =>
      Qred ((if s then -1 else 1) * inject_Z (Z.pos m) * Float.pow2 e)
  | _ => 0
  end.

Definition of_int (n : Z) : PrimFloat.float := PrimFloat.of_uint63 (Uint63.of_Z n).

(** [int(done / total * 100)] *)
Definition percent (done total : Z) : Z :=
  Float.py_int
    (value (PrimFloat.mul (PrimFloat.div (of_int done) (of_int total)) (of_int 100))).

(** The zoom factor after [zoom_in], [zoom_out], [zoom_reset]. *)
Definition zoom (z : PrimFloat.float) (op : zoom_op) : PrimFloat.float :=
  let lit_1_2 := PrimFloat.div (of_int 12) (of_int 10) in
  let lit_0_1 := PrimFloat.div (of_int 1) (of_int 10) in
  match op with
  | ZoomIn =>
      let a := PrimFloat.mul z lit_1_2 in
      if PrimFloat.ltb (of_int 5) a then of_int 5 else a
  | ZoomOut =>
      let a := PrimFloat.div z lit_1_2 in
      if PrimFloat.ltb a lit_0_1 then lit_0_1 else a
  | ZoomReset => of_int 1
  end.

End Kernel.

(** [[l[:0], l[:1], ..., l]] *)
Fixpoint prefixes {A : Type} (l : list A) : list (list A) :=
  match l with
  | [] => [[]]
  | x :: l' => [] :: map (cons x) (prefixes l')
  end.

(** *** A library of two files, for closed instances of the statements *)

Module Sample.

Definition a_pdf : document :=
  Document "lib/a.pdf" [Page 10 true; Page 11 true; Page 12 true].

Definition b_pdf : document := Document "lib/b.pdf" [].

Definition library : world :=
  World (fun p => if String.eqb p "lib/a.pdf" then Return (Stat "1700000000.5")
                  else if String.eqb p "lib/b.pdf" then Return (Stat "1700000100.25")
                  else Raise (Exn "FileNotFoundError" p))
        (fun p => if String.eqb p "lib/a.pdf" then Return a_pdf
                  else if String.eqb p "lib/b.pdf" then Return b_pdf
                  else Raise (Exn "FileNotFoundError" p))
        (fun _ => None) true [] [] [].

Definition pipeline : ThumbnailWorker :=
  ThumbnailWorker_init ["a.pdf"; "b.pdf"] "lib" "thumbnail_cache" (100%nat, 140%nat) 5.

(** The library after [a.pdf] was replaced by a document without pages
    that kept its modification time, the cache still holding the thumbnail
    made before. *)
Definition stale_library : world :=
  let w := snd (generate_thumbnail pipeline "lib/a.pdf" 5 library) in
  World (os_stat w)
        (fun p => if String.eqb p "lib/a.pdf" then Return (Document "lib/a.pdf" [])
                  else fitz_open w p)
        (cache_files w) (cache_writable w) (open_docs w) (signals w) (dialogs w).


(** A viewer that shows [lib/a.pdf], and the world it did so in. *)
Definition shown_a : PDFViewer * world :=
  match display_pdf PDFViewer_init "lib/a.pdf" library with
  | (Return v, w) => (v, w)
  | (Raise _, w) => (PDFViewer_init, w)
  end.


End Sample.

(** * More of the program *)

(** ** [int(s)] *)

Module PyInt.

(** The white space [int()] skips around the number. *)
Definition isspace (c : ascii) : bool :=
  existsb (fun r => PyStr.in_range (fst r) (snd r) c)
    [(9, 13); (32, 32); (133, 133); (160, 160)].

Definition isdigit (c : ascii) : bool := PyStr.in_range 48 57 c.

Fixpoint lstrip (s : string) : string :=
  match s with
  | EmptyString => EmptyString
  | String c s' => if isspace c then lstrip s' else s
  end.

Fixpoint rstrip (s : string) : string :=
  match s with
  | EmptyString => EmptyString
  | String c s' =>
      match rstrip s' with
      | EmptyString => if isspace c then EmptyString else String c EmptyString
      | t => String c t
      end
  end.

(** The digits of a literal: digits with single underscores between them. *)
Fixpoint digits (s : string) (after_digit : bool) : option string :=
  match s with
  | EmptyString => if after_digit then Some EmptyString else None
  | String c s' =>
      if isdigit c then option_map (String c) (digits s' true)
      else if Ascii.eqb c "_" && after_digit then digits s' false
      else None
  end.

Definition ValueError : exn := Exn "ValueError" "invalid literal for int() with base 10".

Definition magnitude (body : string) : outcome Z :=
  match digits body false with
  | Some ds =>
      match NilEmpty.uint_of_string ds with
      | Some d => Return (Z.of_uint d)
      | None => Raise ValueError
      end
  | None => Raise ValueError
  end.

(** [int(s)] *)
Definition int (s : string) : outcome Z :=
  match lstrip (rstrip s) with
  | String "-" body =>
      match magnitude body with Return n => Return (- n) | Raise e => Raise e end
  | String "+" body => magnitude body
  | body => magnitude body
  end.

End PyInt.

(** ** [class PDFViewer]: page navigation *)

Definition set_current_page (self : PDFViewer) (n : Z) : PDFViewer :=
  Viewer (current_pdf_doc self) n (total_pages self)
         (viewer_zoom self) (selected_pdf self) (image_label self)
         (page_label self) (page_entry self).

(** The user types [text] into the page entry. *)
Definition set_page_entry (self : PDFViewer) (text : string) : PDFViewer :=
  Viewer (current_pdf_doc self) (current_page self) (total_pages self)
         (viewer_zoom self) (selected_pdf self) (image_label self)
         (page_label self) text.

(** [if self.current_pdf_doc] *)
Definition has_document (self : PDFViewer) : bool :=
  match current_pdf_doc self with
  | Some doc => truthy doc
  | None => false
  end.

Definition previous_page (self : PDFViewer) : PDFViewer :=
  if has_document self && (current_page self >? 0)
  then display_current_page (set_current_page self (current_page self - 1))
  else self.

Definition next_page (self : PDFViewer) : PDFViewer :=
  if has_document self && (current_page self <? total_pages self - 1)
  then display_current_page (set_current_page self (current_page self + 1))
  else self.

Definition go_to_page (self : PDFViewer) : PDFViewer :=
  (* try: ... except ValueError: pass *)
  match PyInt.int (page_entry self) with
  | Return n =>
      let page_num := n - 1 in
      if (0 <=? page_num) && (page_num <? total_pages self)
      then display_current_page (set_current_page self page_num)
      else self
  | Raise _ => self
  end.

(** What the user does in the toolbar of the viewer. *)
Inductive viewer_action : Type :=
| Previous
| Next
| GoTo (text : string)   (* type [text] into the entry and press Return *)
| Zoom (op : zoom_op).

Definition handle (self : PDFViewer) (a : viewer_action) : PDFViewer :=
  match a with
  | Previous => previous_page self
  | Next => next_page self
  | GoTo text => go_to_page (set_page_entry self text)
  | Zoom op => zoom self op
  end.

(** ** Notions used by the further properties *)

Definition no_slash (c : ascii) : bool := negb (Ascii.eqb c "/").

Definition ends_with (suffix s : string) : bool :=
  (String.length suffix <=? String.length s)%nat
  && String.eqb (substring (String.length s - String.length suffix) (String.length suffix) s) suffix.

(** A rational that binary64 holds exactly. *)
Definition representable (x : Q) : Prop := (Float.round64 x == x)%Q.

(** The viewer shows a page of [doc]. *)
Definition shows (doc : document) (self : PDFViewer) : Prop :=
  current_pdf_doc self = Some doc
  /\ total_pages self = len doc
  /\ 0 <= current_page self < len doc.

(** The library of [Sample] with a cache directory that cannot be written. *)
Definition read_only_library : world :=
  World (os_stat Sample.library) (fitz_open Sample.library) (cache_files Sample.library)
        false (open_docs Sample.library) (signals Sample.library) (dialogs Sample.library).

(** ** More of [str], [list] and [dict] *)

Module PyText.

(** [c.lower()] on U+0000..U+00FF. *)
Definition lower_char (c : ascii) : ascii :=
  if PyStr.in_range 65 90 c || PyStr.in_range 192 214 c || PyStr.in_range 216 222 c
  then ascii_of_N (N_of_ascii c + 32)
  else c.

(** [s.lower()] *)
Fixpoint lower (s : string) : string :=
  match s with
  | EmptyString => EmptyString
  | String c s' => String (lower_char c) (lower s')
  end.

(** [sub in s] *)
Fixpoint contains (sub s : string) : bool :=
  String.prefix sub s
  || match s with
     | EmptyString => false
     | String _ s' => contains sub s'
     end.

(** [s.endswith(suffix)] *)
Definition endswith (s suffix : string) : bool := ends_with suffix s.

End PyText.

Module PyList.

(** One step of sorting: [x] goes before the first element that is not
    smaller. *)
Fixpoint insert (x : string) (l : list string) : list string :=
  match l with
  | [] => [x]
  | y :: l' => if String.leb x y then x :: l else y :: insert x l'
  end.

(** [l.sort()] on a list of [str]: ascending by code points. *)
Fixpoint sort (l : list string) : list string :=
  match l with
  | [] => []
  | x :: l' => insert x (sort l')
  end.

(** [enumerate(l)] *)
Definition enumerate {A : Type} (l : list A) : list (nat * A) :=
  combine (seq 0 (List.length l)) l.

End PyList.

Module PyDict.

(** [d[k] = v] on a [dict], kept as the list of its items: the value of a
    key that is there is replaced in place, a new key goes last. *)
Fixpoint dict_set {V : Type} (d : list (string * V)) (k : string) (v : V) : list (string * V) :=
  match d with
  | [] => [(k, v)]
  | (k', v') :: d' => if String.eqb k k' then (k, v) :: d' else (k', v') :: dict_set d' k v
  end.

(** [d.get(k)] *)
Fixpoint dict_get {V : Type} (d : list (string * V)) (k : string) : option V :=
  match d with
  | [] => None
  | (k', v') :: d' => if String.eqb k k' then Some v' else dict_get d' k
  end.

End PyDict.

(** ** [class ThumbnailWidget] *)

(** A [ThumbnailWidget]: it shows "Loading..." while it has no thumbnail. *)
Record ThumbnailWidget : Type := Widget {
  widget_pdf_path : string;
  widget_thumbnail : option image
}.

(** [ThumbnailWidget.__init__(pdf_path)] *)
Definition ThumbnailWidget_init (pdf_path : string) : ThumbnailWidget :=
  Widget pdf_path None.


(** ** [class PDFLibraryWidget] *)

(** What the folders of the file system hold. *)
Record folders : Type := Folders {
  os_listdir : string -> outcome (list string);   (* [os.listdir(path)] *)
  os_path_isfile : string -> bool                 (* [os.path.isfile(path)] *)
}.

(** What a cell of the grid holds: a thumbnail widget, named by its number
    in the store of widgets, or a text label. *)
Inductive grid_item : Type :=
| ThumbnailCell (id : nat)
| LabelCell (text : string).

Record PDFLibraryWidget : Type := Library {
  current_folder : string;
  current_pdfs : list string;
  widgets : list ThumbnailWidget;             (* the thumbnail widgets alive, by number *)
  thumbnail_widgets : list (string * nat);    (* the dict: path to widget *)
  grid_layout : list (nat * nat * grid_item); (* row, column, item *)
  library_cache_dir : string;
  library_thumbnail_size : nat * nat;
  thumbnail_worker : option thread;
  progress_visible : bool;
  progress_value : Z;
  thumbnail_page_spin : Z
}.

(** [PDFLibraryWidget.__init__] with the widgets of [init_ui]. *)
Definition PDFLibraryWidget_init : PDFLibraryWidget :=
  Library "" [] [] [] [] "thumbnail_cache" (100%nat, 140%nat) None false 0 0.

Definition set_current_folder (self : PDFLibraryWidget) (folder_path : string)
    : PDFLibraryWidget :=
  Library folder_path (current_pdfs self) (widgets self)
          (thumbnail_widgets self) (grid_layout self)
          (library_cache_dir self) (library_thumbnail_size self) (thumbnail_worker self)
          (progress_visible self) (progress_value self) (thumbnail_page_spin self).

Definition set_current_pdfs (self : PDFLibraryWidget) (l : list string) : PDFLibraryWidget :=
  Library (current_folder self) l (widgets self)
          (thumbnail_widgets self) (grid_layout self)
          (library_cache_dir self) (library_thumbnail_size self) (thumbnail_worker self)
          (progress_visible self) (progress_value self) (thumbnail_page_spin self).

Definition set_thumbnails (self : PDFLibraryWidget) (ws : list ThumbnailWidget)
    (dict : list (string * nat)) (grid : list (nat * nat * grid_item)) : PDFLibraryWidget :=
  Library (current_folder self) (current_pdfs self) ws dict grid
          (library_cache_dir self) (library_thumbnail_size self) (thumbnail_worker self)
          (progress_visible self) (progress_value self) (thumbnail_page_spin self).

Definition set_thumbnail_worker (self : PDFLibraryWidget) (t : option thread)
    : PDFLibraryWidget :=
  Library (current_folder self) (current_pdfs self) (widgets self)
          (thumbnail_widgets self) (grid_layout self)
          (library_cache_dir self) (library_thumbnail_size self) t
          (progress_visible self) (progress_value self) (thumbnail_page_spin self).

Definition set_progress_bar (self : PDFLibraryWidget) (visible : bool) (value : Z)
    : PDFLibraryWidget :=
  Library (current_folder self) (current_pdfs self) (widgets self)
          (thumbnail_widgets self) (grid_layout self)
          (library_cache_dir self) (library_thumbnail_size self) (thumbnail_worker self)
          visible value (thumbnail_page_spin self).

(** The worker thread, taken up in the present world. *)
Definition resume (t : thread) (w : world) : thread :=
  Thread (worker t) (at_point t) (index t) (pending t) w.

(** [worker.isRunning()] *)
Definition isRunning (t : thread) : bool :=
  match at_point t with
  | Finished | Failed _ => false
  | _ => true
  end.

(** [worker.stop(); worker.wait()]: the flag is cleared and the thread
    runs on to the end of [run], which with the flag cleared is no further
    than the end of the file in hand. *)
Definition stop_and_wait (t : thread) (w : world) : thread :=
  exec (Stop :: repeat Work 4) (resume t w).

(** The body of the loop that creates the placeholder widgets. *)
Definition add_placeholder (folder_path : string) (self : PDFLibraryWidget)
    (item : nat * string) : PDFLibraryWidget :=
  let '(i, pdf_file) := item in
  let pdf_path := os_path_join folder_path pdf_file in
  let row := (i / 4)%nat in
  let col := (i mod 4)%nat in
  let id := List.length (widgets self) in   (* the new widget *)
  set_thumbnails self
    (widgets self ++ [ThumbnailWidget_init pdf_path])
    (PyDict.dict_set (thumbnail_widgets self) pdf_path id)
    (grid_layout self ++ [(row, col, ThumbnailCell id)]).

Definition load_thumbnails_async (self : PDFLibraryWidget) (pdf_files : list string)
    (folder_path : string) : world -> PDFLibraryWidget * world :=
  fun w =>
    (* stop any existing worker *)
    let '(self, w) :=
      match thumbnail_worker self with
      | Some t =>
          if isRunning t
          then let t' := stop_and_wait t w in (set_thumbnail_worker self (Some t'), env t')
          else (self, w)
      | None => (self, w)
      end in
    (* clear existing thumbnails *)
    let self := set_thumbnails self [] [] [] in
    match pdf_files with
    | [] =>
        (set_thumbnails self [] []
           [(0%nat, 0%nat, LabelCell "No PDF files found in selected folder")], w)
    | _ :: _ =>
        (* create placeholder widgets *)
        let self := fold_left (add_placeholder folder_path) (PyList.enumerate pdf_files) self in
        (* start worker thread *)
        let self := set_progress_bar self true 0 in
        let new_worker :=
          ThumbnailWorker_init pdf_files folder_path (library_cache_dir self)
            (library_thumbnail_size self) (thumbnail_page_spin self) in
        (set_thumbnail_worker self (Some (start new_worker w)), w)
    end.





Definition load_pdfs_from_folder (fs : folders) (self : PDFLibraryWidget)
    (folder_path : string) : world -> PDFLibraryWidget * world :=
  fun w =>
    match os_listdir fs folder_path with
    | Return names =>
        let pdf_files :=
          filter (fun f => PyText.endswith (PyText.lower f) ".pdf"
                           && os_path_isfile fs (os_path_join folder_path f)) names in
        let pdf_files := PyList.sort pdf_files in
        load_thumbnails_async (set_current_pdfs self pdf_files) pdf_files folder_path w
    | Raise e =>
        (self, snd (QMessageBox_critical "Error" ("Could not load PDFs: " ++ exn_msg e) w))
    end.

(** [if self.current_folder] *)
Definition has_folder (self : PDFLibraryWidget) : bool :=
  negb (String.eqb (current_folder self) "").

Definition on_search (fs : folders) (self : PDFLibraryWidget) (text : string)
    : world -> PDFLibraryWidget * world :=
  fun w =>
    let search_term := PyText.lower text in
    if String.eqb search_term "" && has_folder self then
      load_pdfs_from_folder fs self (current_folder self) w
    else if negb (String.eqb search_term "") && has_folder self then
      let filtered_pdfs :=
        filter (fun f => PyText.contains search_term (PyText.lower f)) (current_pdfs self) in
      load_thumbnails_async self filtered_pdfs (current_folder self) w
    else (self, w).

Definition refresh_library (fs : folders) (self : PDFLibraryWidget)
    : world -> PDFLibraryWidget * world :=
  fun w =>
    if has_folder self then load_pdfs_from_folder fs self (current_folder self) w
    else (self, w).

(** [open_folder], the dialog having returned [folder_path] (empty when
    it was dismissed). *)
Definition open_folder (fs : folders) (self : PDFLibraryWidget) (folder_path : string)
    : world -> PDFLibraryWidget * world :=
  fun w =>
    if negb (String.eqb folder_path "")
    then load_pdfs_from_folder fs (set_current_folder self folder_path) folder_path w
    else (self, w).

(** ** Notions used by the properties of the library *)


(** The widget of [p] shows a thumbnail that was emitted for [p] in [l]. *)
Definition filled_from (l : list signal) (self : PDFLibraryWidget) (p : string) : Prop :=
  exists id x img,
    PyDict.dict_get (thumbnail_widgets self) p = Some id
    /\ nth_error (widgets self) id = Some x
    /\ widget_pdf_path x = p
    /\ widget_thumbnail x = Some img
    /\ In (thumbnail_ready p img) l.

(** The library after the searches [texts], one after the other. *)
Definition searches (fs : folders) (texts : list string) (st : PDFLibraryWidget * world)
    : PDFLibraryWidget * world :=
  fold_left (fun st text => on_search fs (fst st) text (snd st)) texts st.

(** The folder [lib] of [Sample.library] as [os.listdir] gives it, with a
    text file, a subfolder named like a PDF and an upper-case suffix. *)
Definition sample_folders : folders :=
  Folders (fun p => if String.eqb p "lib"
                    then Return ["b.pdf"; "notes.txt"; "a.pdf"; "Scans.PDF"; "old.pdf"]
                    else Raise (Exn "FileNotFoundError" p))
          (fun p => existsb (String.eqb p)
                      ["lib/a.pdf"; "lib/b.pdf"; "lib/notes.txt"; "lib/Scans.PDF"]).

(** The library after [lib] was opened. *)
Definition sample_library : PDFLibraryWidget * world :=
  open_folder sample_folders PDFLibraryWidget_init "lib" Sample.library.

(** * Properties *)

(** ** The models of [hashlib.md5] and of float arithmetic on known values *)

Example md5_empty : MD5.hexdigest (PyStr.encode "") = "d41d8cd98f00b204e9800998ecf8427e".
Proof. vm_compute. reflexivity. Qed.

Example md5_abc : MD5.hexdigest (PyStr.encode "abc") = "900150983cd24fb0d6963f7d28e17f72".
Proof. vm_compute. reflexivity. Qed.

(** [0.1] is [0x1.999999999999ap-4], [1.2] is [0x1.3333333333333p+0];
    [int(29 / 100 * 100)] is 28 and [int(29 / 50 * 100)] is 57, as in
    Python. *)
Example float_samples :
  Float.lit_0_1 = (3602879701896397 # 36028797018963968)%Q
  /\ Float.lit_1_2 = (5404319552844595 # 4503599627370496)%Q
  /\ percent 29 100 = 28
  /\ percent 29 50 = 57
  /\ percent 1 3 = 33.
Proof. vm_compute. repeat split. Qed.

(** On every pair of [1 <= done <= total <= 100] the percentage of the
    model is the one the kernel's binary64 arithmetic computes. *)
Example percent_as_in_binary64 :
  forallb (fun total =>
             forallb (fun done => percent done total =? Kernel.percent done total)
                     (Zseq 1 (Z.to_nat total)))
          (Zseq 1 100) = true.
Proof. vm_compute. reflexivity. Qed.

(** Along twelve [zoom_in], thirty [zoom_out] and a few more steps, which
    reach both bounds, the zoom factor of the model is the one the kernel's
    binary64 arithmetic computes. *)
Example zoom_as_in_binary64 :
  forallb (fun ops =>
             Qeq_bool (viewer_zoom (fold_left zoom ops PDFViewer_init))
                      (Kernel.value (fold_left Kernel.zoom ops (Kernel.of_int 1))))
          (prefixes (repeat ZoomIn 12 ++ repeat ZoomOut 30
                       ++ [ZoomIn; ZoomIn; ZoomOut; ZoomReset; ZoomOut; ZoomIn]))
  = true.
Proof. vm_compute. reflexivity. Qed.

(** ** Binary64 rounding *)

Section FloatFacts.
Import Float.
Local Open Scope Q_scope.

Lemma two_neq_0 : ~ 2 == 0.
Proof. discriminate. Qed.

Lemma pow2_pos (e : Z) : 0 < pow2 e.
Proof. apply Qpower_0_lt. reflexivity. Qed.

Lemma pow2_add (a b : Z) : pow2 (a + b) == pow2 a * pow2 b.
Proof. apply Qpower_plus, two_neq_0. Qed.

Lemma pow2_le (a b : Z) : (a <= b)%Z -> pow2 a <= pow2 b.
Proof. intros H. apply Qpower_le_compat_l; [exact H | discriminate]. Qed.

Lemma pow2_lt (a b : Z) : (a < b)%Z -> pow2 a < pow2 b.
Proof. intros H. apply Qpower_lt_compat_l; [exact H | reflexivity]. Qed.

Lemma pow2_inject (n : Z) : (0 <= n)%Z -> pow2 n == inject_Z (2 ^ n).
Proof. intros H. unfold pow2. symmetry. apply (Zpower_Qpower 2 n H). Qed.

Lemma pow2_succ (a : Z) : pow2 (a + 1) == 2 * pow2 a.
Proof. rewrite pow2_add. unfold pow2 at 2. simpl. ring. Qed.

Lemma pow2_frac (m n : Z) :
  (0 <= m)%Z -> (0 <= n)%Z -> pow2 (m - n) == 2 ^ m # Z.to_pos (2 ^ n).
Proof.
  intros Hm Hn. unfold pow2. rewrite Qpower_minus by apply two_neq_0.
  fold (pow2 m). fold (pow2 n).
  rewrite (pow2_inject m Hm), (pow2_inject n Hn), Qmake_Qdiv.
  rewrite Z2Pos.id by (apply Z.pow_pos_nonneg; lia). reflexivity.
Qed.

(** [ilog2] is the floor of the binary logarithm. *)
Lemma ilog2_spec (x : Q) : 0 < x -> pow2 (ilog2 x) <= x /\ x < pow2 (ilog2 x + 1).
Proof.
  intros Hx. destruct x as [p q].
  assert (Hp : (0 < p)%Z).
  { unfold Qlt in Hx. simpl in Hx. lia. }
  unfold ilog2. cbn [Qnum Qden].
  set (lp := Z.log2 p). set (lq := Z.log2 (Z.pos q)).
  assert (Hlp : (2 ^ lp <= p < 2 ^ Z.succ lp)%Z) by (apply Z.log2_spec; exact Hp).
  assert (Hlq : (2 ^ lq <= Z.pos q < 2 ^ Z.succ lq)%Z) by (apply Z.log2_spec; reflexivity).
  assert (Hlp0 : (0 <= lp)%Z) by apply Z.log2_nonneg.
  assert (Hlq0 : (0 <= lq)%Z) by apply Z.log2_nonneg.
  assert (Pp : (0 < 2 ^ lp)%Z) by (apply Z.pow_pos_nonneg; lia).
  assert (Pq : (0 < 2 ^ lq)%Z) by (apply Z.pow_pos_nonneg; lia).
  rewrite Z.pow_succ_r in Hlp, Hlq by assumption.
  assert (Hup : p # q < pow2 (lp - lq + 1)).
  { replace (lp - lq + 1)%Z with ((lp + 1) - lq)%Z by ring.
    rewrite pow2_frac by lia. unfold Qlt. cbn [Qnum Qden].
    rewrite Z2Pos.id by exact Pq. rewrite Z.pow_add_r by lia.
    change (2 ^ 1)%Z with 2%Z. nia. }
  assert (Hlow : pow2 (lp - lq - 1) <= p # q).
  { replace (lp - lq - 1)%Z with (lp - (lq + 1))%Z by ring.
    rewrite pow2_frac by lia. unfold Qle. cbn [Qnum Qden].
    rewrite Z2Pos.id by (apply Z.pow_pos_nonneg; lia).
    rewrite Z.pow_add_r by lia. change (2 ^ 1)%Z with 2%Z. nia. }
  destruct (Qle_bool (pow2 (lp - lq)) (p # q)) eqn:E.
  - apply Qle_bool_iff in E. split; assumption.
  - assert (E' : ~ pow2 (lp - lq) <= p # q).
    { intros H. apply Qle_bool_iff in H. congruence. }
    apply Qnot_le_lt in E'. split; [exact Hlow|].
    replace (lp - lq - 1 + 1)%Z with (lp - lq)%Z by ring. exact E'.
Qed.

Lemma ilog2_mono (x y : Q) : 0 < x -> x <= y -> (ilog2 x <= ilog2 y)%Z.
Proof.
  intros Hx Hxy.
  assert (Hy : 0 < y) by (eapply Qlt_le_trans; eassumption).
  destruct (ilog2_spec x Hx) as [Lx _].
  destruct (ilog2_spec y Hy) as [_ Uy].
  destruct (Z_lt_le_dec (ilog2 y) (ilog2 x)) as [Hlt|]; [exfalso | assumption].
  assert (H : pow2 (ilog2 y + 1) <= pow2 (ilog2 x)) by (apply pow2_le; lia).
  apply (Qlt_irrefl y).
  eapply Qlt_le_trans; [exact Uy|].
  eapply Qle_trans; [exact H|]. eapply Qle_trans; eassumption.
Qed.

Lemma exponent_mono (x y : Q) : 0 < x -> x <= y -> (exponent x <= exponent y)%Z.
Proof.
  intros Hx Hxy. unfold exponent.
  pose proof (ilog2_mono x y Hx Hxy). lia.
Qed.

(** *** Rounding to the nearest integer *)

Lemma rne_floor (x : Q) : (Qfloor x <= rne x <= Qfloor x + 1)%Z.
Proof.
  unfold rne. destruct (x - inject_Z (Qfloor x) ?= 1 # 2); [destruct (Z.even _)| |]; lia.
Qed.

Lemma rne_ge_int (n : Z) (x : Q) : inject_Z n <= x -> (n <= rne x)%Z.
Proof.
  intros H. apply Qfloor_resp_le in H. rewrite Qfloor_Z in H.
  pose proof (rne_floor x). lia.
Qed.

Lemma rne_le_int (n : Z) (x : Q) : x <= inject_Z n -> (rne x <= n)%Z.
Proof.
  intros H. pose proof (Qfloor_resp_le _ _ H) as Hf. rewrite Qfloor_Z in Hf.
  destruct (Z.eq_dec (Qfloor x) n) as [E|N].
  - unfold rne. rewrite E.
    destruct (Qcompare_spec (x - inject_Z n) (1 # 2)) as [Ex|Lx|Gx];
      [exfalso; lra | lia | exfalso; lra].
  - pose proof (rne_floor x). lia.
Qed.

Lemma rne_mono (x y : Q) : x <= y -> (rne x <= rne y)%Z.
Proof.
  intros H. pose proof (Qfloor_resp_le _ _ H) as Hf.
  destruct (Z.eq_dec (Qfloor x) (Qfloor y)) as [E|N].
  - unfold rne. rewrite <- E. set (f := Qfloor x).
    destruct (Qcompare_spec (x - inject_Z f) (1 # 2)) as [Ex|Lx|Gx];
      destruct (Qcompare_spec (y - inject_Z f) (1 # 2)) as [Ey|Ly|Gy];
      try (destruct (Z.even f)); try lia; exfalso; lra.
  - pose proof (rne_floor x). pose proof (rne_floor y). lia.
Qed.

Lemma rne_inject (n : Z) : rne (inject_Z n) = n.
Proof.
  pose proof (rne_ge_int n (inject_Z n) (Qle_refl _)).
  pose proof (rne_le_int n (inject_Z n) (Qle_refl _)). lia.
Qed.

(** *** Rounding to binary64 *)

Lemma scaled_lt_2_53 (x : Q) : 0 < x -> x / pow2 (exponent x) < inject_Z (2 ^ 53).
Proof.
  intros Hx. destruct (ilog2_spec x Hx) as [_ U].
  apply Qlt_shift_div_r; [apply pow2_pos|].
  rewrite <- (pow2_inject 53) by lia. rewrite <- pow2_add.
  eapply Qlt_le_trans; [exact U|]. apply pow2_le. unfold exponent. lia.
Qed.

Lemma scaled_ge_2_52 (x : Q) :
  0 < x -> (-1074 < exponent x)%Z -> inject_Z (2 ^ 52) <= x / pow2 (exponent x).
Proof.
  intros Hx He. destruct (ilog2_spec x Hx) as [L _].
  apply Qle_shift_div_l; [apply pow2_pos|].
  rewrite <- (pow2_inject 52) by lia. rewrite <- pow2_add.
  eapply Qle_trans; [|exact L]. apply pow2_le. unfold exponent in *. lia.
Qed.

Lemma round_pos_eq (x : Q) :
  round_pos x == inject_Z (rne (x / pow2 (exponent x))) * pow2 (exponent x).
Proof. unfold round_pos. apply Qred_correct. Qed.

Lemma round_pos_nonneg (x : Q) : 0 < x -> 0 <= round_pos x.
Proof.
  intros Hx. rewrite round_pos_eq.
  apply Qmult_le_0_compat; [|apply Qlt_le_weak, pow2_pos].
  change 0 with (inject_Z 0). rewrite <- Zle_Qle. apply rne_ge_int.
  apply Qle_shift_div_l; [apply pow2_pos|]. change (inject_Z 0) with 0. lra.
Qed.

Lemma round_pos_mono (x y : Q) : 0 < x -> x <= y -> round_pos x <= round_pos y.
Proof.
  intros Hx Hxy.
  assert (Hy : 0 < y) by (eapply Qlt_le_trans; eassumption).
  rewrite !round_pos_eq.
  pose proof (exponent_mono x y Hx Hxy) as He.
  destruct (Z.eq_dec (exponent x) (exponent y)) as [E|N].
  - rewrite E. apply Qmult_le_compat_r; [|apply Qlt_le_weak, pow2_pos].
    rewrite <- Zle_Qle. apply rne_mono.
    apply Qmult_le_compat_r; [exact Hxy|].
    apply Qlt_le_weak, Qinv_lt_0_compat, pow2_pos.
  - assert (Hlt : (exponent x < exponent y)%Z) by lia.
    assert (Hx53 : (rne (x / pow2 (exponent x)) <= 2 ^ 53)%Z).
    { apply rne_le_int, Qlt_le_weak, scaled_lt_2_53, Hx. }
    assert (Hy52 : (2 ^ 52 <= rne (y / pow2 (exponent y)))%Z).
    { apply rne_ge_int, scaled_ge_2_52; [exact Hy|].
      unfold exponent in *. lia. }
    apply Qle_trans with (inject_Z (2 ^ 53) * pow2 (exponent x)).
    { apply Qmult_le_compat_r; [|apply Qlt_le_weak, pow2_pos].
      rewrite <- Zle_Qle. exact Hx53. }
    apply Qle_trans with (inject_Z (2 ^ 52) * pow2 (exponent y)).
    { rewrite <- (pow2_inject 53), <- (pow2_inject 52) by lia.
      rewrite <- !pow2_add. apply pow2_le. lia. }
    apply Qmult_le_compat_r; [|apply Qlt_le_weak, pow2_pos].
    rewrite <- Zle_Qle. exact Hy52.
Qed.

(** [round64] depends on the value of its argument only. *)
Lemma round64_comp (x y : Q) : x == y -> round64 x = round64 y.
Proof. intros H. unfold round64. rewrite (Qred_complete x y H). reflexivity. Qed.

Lemma round64_nonneg (x : Q) : 0 <= x -> 0 <= round64 x.
Proof.
  intros Hx. unfold round64.
  destruct (Qcompare_spec (Qred x) 0) as [E|L|G].
  - apply Qle_refl.
  - rewrite Qred_correct in L. exfalso. lra.
  - apply round_pos_nonneg, G.
Qed.

Lemma round64_nonpos (x : Q) : x <= 0 -> round64 x <= 0.
Proof.
  intros Hx. unfold round64.
  destruct (Qcompare_spec (Qred x) 0) as [E|L|G].
  - apply Qle_refl.
  - assert (H : 0 <= round_pos (- Qred x)) by (apply round_pos_nonneg; lra). lra.
  - rewrite Qred_correct in G. exfalso. lra.
Qed.

(** Rounding is monotone. *)
Lemma round64_mono (x y : Q) : x <= y -> round64 x <= round64 y.
Proof.
  intros Hxy.
  destruct (Qlt_le_dec 0 x) as [Px|Nx].
  - (* 0 < x <= y *)
    assert (Py : 0 < y) by lra.
    unfold round64.
    destruct (Qcompare_spec (Qred x) 0) as [E|L|G];
      try (rewrite Qred_correct in *; exfalso; lra).
    destruct (Qcompare_spec (Qred y) 0) as [E'|L'|G'];
      try (rewrite Qred_correct in *; exfalso; lra).
    apply round_pos_mono; [exact G | rewrite !Qred_correct; exact Hxy].
  - destruct (Qlt_le_dec y 0) as [Ny|Py].
    + (* x <= y < 0 *)
      unfold round64.
      destruct (Qcompare_spec (Qred x) 0) as [E|L|G];
        try (rewrite Qred_correct in *; exfalso; lra).
      destruct (Qcompare_spec (Qred y) 0) as [E'|L'|G'];
        try (rewrite Qred_correct in *; exfalso; lra).
      assert (H : round_pos (- Qred y) <= round_pos (- Qred x)).
      { apply round_pos_mono; [lra | rewrite !Qred_correct; lra]. }
      lra.
    + pose proof (round64_nonpos x Nx). pose proof (round64_nonneg y Py). lra.
Qed.


End FloatFacts.

Section PercentFacts.
Import Float.




End PercentFacts.

(** ** Strings *)


Section StringFacts.
Import PyStr.
Local Open Scope string_scope.

Lemma all_chars_app (P : ascii -> bool) (a b : string) :
  all_chars P (a ++ b) = all_chars P a && all_chars P b.
Proof.
  induction a as [|c a IH]; cbn; [reflexivity|].
  rewrite IH. apply andb_assoc.
Qed.

Lemma all_chars_impl (P Q : ascii -> bool) (s : string) :
  (forall c, P c = true -> Q c = true) -> all_chars P s = true -> all_chars Q s = true.
Proof.
  intros H. induction s as [|c s IH]; cbn; [reflexivity|].
  intros E. apply andb_true_iff in E as [E1 E2].
  rewrite (H c E1), (IH E2). reflexivity.
Qed.

Lemma all_chars_filter (P : ascii -> bool) (s : string) :
  all_chars P (filter_chars P s) = true.
Proof.
  induction s as [|c s IH]; cbn; [reflexivity|].
  destruct (P c) eqn:E; cbn; rewrite ?E; exact IH.
Qed.

Lemma all_chars_rstrip (P : ascii -> bool) (s : string) :
  all_chars P s = true -> all_chars P (rstrip s) = true.
Proof.
  induction s as [|c s IH]; cbn [rstrip all_chars]; [reflexivity|].
  intros E. apply andb_true_iff in E as [E1 E2]. specialize (IH E2).
  destruct (rstrip s) as [|c' t].
  - destruct (isspace c); cbn [all_chars]; rewrite ?E1; reflexivity.
  - cbn [all_chars] in *. rewrite E1. exact IH.
Qed.

Lemma all_chars_substring (P : ascii -> bool) (s : string) :
  all_chars P s = true -> forall n m, all_chars P (substring n m s) = true.
Proof.
  induction s as [|c s IH]; intros E n m.
  - destruct n, m; reflexivity.
  - cbn in E. apply andb_true_iff in E as [E1 E2].
    destruct n as [|n]; cbn.
    + destruct m as [|m]; cbn; [reflexivity|]. rewrite E1. apply IH, E2.
    + apply IH, E2.
Qed.

Lemma append_assoc (a b c : string) : (a ++ b) ++ c = a ++ (b ++ c).
Proof. induction a as [|x a IH]; cbn; [reflexivity|]. rewrite IH. reflexivity. Qed.



Lemma int_chars_uint (d : Decimal.uint) :
  all_chars int_char (NilEmpty.string_of_uint d) = true.
Proof. induction d; cbn; try reflexivity; exact IHd. Qed.

Lemma str_int_chars (n : Z) : all_chars int_char (str_int n) = true.
Proof.
  unfold str_int, NilZero.string_of_int, NilZero.string_of_uint.
  destruct (Z.to_int n) as [d|d]; destruct d; cbn; try reflexivity; apply int_chars_uint.
Qed.





End StringFacts.

(** ** The MD5 digest in hexadecimal *)

Section DigestFacts.
Import PyStr.

Lemma hex_digit_char (n : Z) : hex_char (MD5.hex_digit n) = true.
Proof.
  unfold MD5.hex_digit. generalize (Z.to_nat n). intros k.
  do 16 (destruct k as [|k]; [reflexivity|]). destruct k; reflexivity.
Qed.

Lemma hex_chars (bytes : list Z) : all_chars hex_char (MD5.hex bytes) = true.
Proof.
  induction bytes as [|b rest IH]; cbn [MD5.hex all_chars]; [reflexivity|].
  rewrite !hex_digit_char, IH. reflexivity.
Qed.

Lemma hex_length (bytes : list Z) :
  String.length (MD5.hex bytes) = (2 * List.length bytes)%nat.
Proof. induction bytes as [|b rest IH]; cbn; [reflexivity|]. rewrite IH. lia. Qed.

Lemma digest_length (msg : list Z) : List.length (MD5.digest msg) = 16%nat.
Proof.
  unfold MD5.digest.
  destruct (MD5.blocks _ _ _) as [[[a b] c] d].
  rewrite !length_app. unfold MD5.le_bytes. rewrite !length_map, !length_seq. reflexivity.
Qed.

Lemma hexdigest_length (msg : list Z) : String.length (MD5.hexdigest msg) = 32%nat.
Proof. unfold MD5.hexdigest. rewrite hex_length, digest_length. reflexivity. Qed.

Lemma substring_length (s : string) :
  forall n, (n <= String.length s)%nat -> String.length (substring 0 n s) = n.
Proof.
  induction s as [|c s IH]; intros [|n] H; cbn in *; try reflexivity; try lia.
  rewrite IH by lia. reflexivity.
Qed.

(** The hash component: twelve hexadecimal digits. *)
Lemma hash_name_shape (key : string) :
  String.length (hash_name key) = 12%nat /\ all_chars hex_char (hash_name key) = true.
Proof.
  unfold hash_name. split.
  - apply substring_length. rewrite hexdigest_length. lia.
  - apply all_chars_substring, hex_chars.
Qed.
End DigestFacts.

(** ** Cache file names *)

Section CacheNames.
Local Open Scope string_scope.



End CacheNames.

(** ** The thumbnail generator *)

Lemma get_cache_filename_total (self : ThumbnailWorker) (pdf_path : string) (n : Z) (w : world) :
  exists cache_file, get_cache_filename self pdf_path n w = (Return cache_file, w).
Proof.
  unfold get_cache_filename, try_except, bind, ret.
  destruct (os_stat w pdf_path); eexists; reflexivity.
Qed.

Lemma cache_lookup_total (cache_file : string) (w : world) :
  exists r, cache_lookup cache_file w = (Return r, w).
Proof.
  unfold cache_lookup, bind, exists_, try_except, Image_open, ret.
  destruct (cache_files w cache_file) as [[img|]|] eqn:E; cbn; rewrite ?E; eexists; reflexivity.
Qed.



(** ** The pipeline *)



Lemma signals_emit (s : signal) (w : world) :
  signals (snd (emit s w)) = signals w ++ [s] /\ dialogs (snd (emit s w)) = dialogs w.
Proof. split; reflexivity. Qed.






Lemma last_cons_cons {A : Type} (a b : A) (l : list A) (d : A) :
  last (a :: b :: l) d = last (b :: l) d.
Proof. reflexivity. Qed.


(** ** Cancellation *)



















(** ** C1 *)

(** A request past the end of a document with pages is served page 0. *)
Lemma chosen_page_out_of_range (doc : document) (page_num : Z) :
  1 <= len doc -> len doc <= page_num -> chosen_page doc page_num = 0.
Proof.
  intros H1 H2. unfold chosen_page.
  destruct (Z.geb_spec page_num (len doc)); lia.
Qed.

(** C1 (defect of the code).  For a document of three pages and a request
    for page 5, [generate_thumbnail] renders the page of index 0, not the
    last page (index 2) that the comment in the source announces: the
    index is [min(len(doc) - 1, 0)]. *)
Example out_of_range_page_renders_first_page :
  len Sample.a_pdf = 3
  /\ chosen_page Sample.a_pdf 5 = 0
  /\ fst (generate_thumbnail Sample.pipeline "lib/a.pdf" 5 Sample.library)
     = Return (Page_thumbnail (Page 10 true) (100%nat, 140%nat))
  /\ getitem Sample.a_pdf (len Sample.a_pdf - 1) = Return (Page 12 true).
Proof. vm_compute. repeat split. Qed.

(** ** C2 *)

(** C2, as stated, fails: a viewer showing [lib/a.pdf] is asked for a file
    that does not open; its [selected_pdf] becomes the new path. *)
Lemma display_pdf_failure_moves_selection :
  (exists e, fitz_open (snd Sample.shown_a) "lib/zz.pdf" = Raise e)
  /\ selected_pdf (fst Sample.shown_a) = Some "lib/a.pdf"
  /\ exists v' w',
       display_pdf (fst Sample.shown_a) "lib/zz.pdf" (snd Sample.shown_a) = (Return v', w')
       /\ selected_pdf v' = Some "lib/zz.pdf"
       /\ selected_pdf v' <> selected_pdf (fst Sample.shown_a).
Proof.
  split; [eexists; vm_compute; reflexivity|].
  split; [vm_compute; reflexivity|].
  eexists. eexists. split; [vm_compute; reflexivity|].
  split; [reflexivity | discriminate].
Qed.

(** C2 (amended).  When the document fails to open, [display_pdf] keeps
    [current_pdf_doc], [current_page], [total_pages] and the zoom factor,
    sets [selected_pdf] to the requested path, opens no handle and shows
    one critical message box carrying the reason. *)
Theorem display_pdf_open_failure (self : PDFViewer) (pdf_path : string) (w : world) (e : exn) :
  fitz_open w pdf_path = Raise e ->
  exists self' w',
    display_pdf self pdf_path w = (Return self', w')
    /\ current_pdf_doc self' = current_pdf_doc self
    /\ current_page self' = current_page self
    /\ total_pages self' = total_pages self
    /\ viewer_zoom self' = viewer_zoom self
    /\ image_label self' = image_label self
    /\ selected_pdf self' = Some pdf_path
    /\ open_docs w' = open_docs w
    /\ dialogs w' = dialogs w ++ [Critical "Error" ("Could not display PDF: " ++ exn_msg e)].
Proof.
  intros E. unfold display_pdf, try_except, bind, fitz_open_doc. rewrite E.
  eexists. eexists. split; [reflexivity|]. cbn. repeat split; reflexivity.
Qed.

Lemma display_pdf_open_failure_witness :
  exists self' w',
    display_pdf (fst Sample.shown_a) "lib/zz.pdf" (snd Sample.shown_a) = (Return self', w')
    /\ current_pdf_doc self' = current_pdf_doc (fst Sample.shown_a)
    /\ current_page self' = current_page (fst Sample.shown_a)
    /\ total_pages self' = total_pages (fst Sample.shown_a)
    /\ viewer_zoom self' = viewer_zoom (fst Sample.shown_a)
    /\ image_label self' = image_label (fst Sample.shown_a)
    /\ selected_pdf self' = Some "lib/zz.pdf"
    /\ open_docs w' = open_docs (snd Sample.shown_a)
    /\ dialogs w' = dialogs (snd Sample.shown_a)
                    ++ [Critical "Error" ("Could not display PDF: " ++ "lib/zz.pdf")].
Proof.
  apply (display_pdf_open_failure (fst Sample.shown_a) "lib/zz.pdf" (snd Sample.shown_a)
           (Exn "FileNotFoundError" "lib/zz.pdf")).
  reflexivity.
Defined.

(** ** C3 *)



(** ** C4 *)




(** ** C5 *)

(** C5, as stated, fails: the document at [lib/a.pdf] has no pages, but the
    cache still holds a thumbnail under the name derived from its path,
    modification time and page, and [generate_thumbnail] returns that
    thumbnail, not a placeholder. *)
Lemma cached_thumbnail_shadows_placeholder :
  (exists doc, fitz_open Sample.stale_library "lib/a.pdf" = Return doc /\ len doc = 0)
  /\ fst (generate_thumbnail Sample.pipeline "lib/a.pdf" 5 Sample.stale_library)
     = Return (Page_thumbnail (Page 10 true) (100%nat, 140%nat))
  /\ fst (generate_thumbnail Sample.pipeline "lib/a.pdf" 5 Sample.stale_library)
     <> fst (create_placeholder_thumbnail Sample.pipeline Sample.stale_library).
Proof.
  split; [eexists; split; vm_compute; reflexivity|].
  split; [vm_compute; reflexivity|].
  vm_compute. discriminate.
Qed.

Lemma getitem_empty (doc : document) (i : Z) :
  len doc = 0 -> getitem doc i = Raise IndexError.
Proof.
  intros H. unfold getitem. rewrite H.
  assert (E : doc_pages doc = []).
  { unfold len in H. destruct (doc_pages doc); [reflexivity | discriminate]. }
  rewrite E. destruct (i <? 0); [|reflexivity].
  destruct (Z.to_nat (i mod 0)); reflexivity.
Qed.

(** C5 (amended).  When the cache lookup misses, and the path does not
    open or opens as a document without pages, [generate_thumbnail]
    returns (it does not raise) the placeholder, whose size is the
    requested thumbnail size. *)
Theorem placeholder_for_unrenderable (self : ThumbnailWorker) (w : world)
    (pdf_path cache_file : string) (page_num : Z) :
  fst (get_cache_filename self pdf_path page_num w) = Return cache_file ->
  fst (cache_lookup cache_file w) = Return None ->
  (exists e, fitz_open w pdf_path = Raise e)
  \/ (exists doc, fitz_open w pdf_path = Return doc /\ len doc = 0) ->
  exists img w',
    generate_thumbnail self pdf_path page_num w = (Return img, w')
    /\ img = Image_new (thumbnail_size self) "lightgray"
    /\ image_size img = Some (thumbnail_size self).
Proof.
  intros Hf Hmiss Hdoc.
  unfold generate_thumbnail, bind.
  destruct (get_cache_filename_total self pdf_path page_num w) as [f Ef].
  rewrite Ef in Hf |- *. cbn in Hf. injection Hf as ->.
  destruct (cache_lookup_total cache_file w) as [r Er].
  rewrite Er in Hmiss |- *. cbn in Hmiss. injection Hmiss as ->.
  unfold regenerate, fitz_open_doc.
  destruct Hdoc as [[e E] | (doc & E & Hlen)]; rewrite E.
  - eexists. eexists. repeat split.
  - unfold try_finally, try_except, render_and_store, bind, lift.
    assert (G : getitem doc (chosen_page doc page_num) = Raise IndexError)
      by (apply getitem_empty, Hlen).
    rewrite G. unfold truthy. rewrite Hlen. cbn.
    eexists. eexists. repeat split.
Qed.

Lemma placeholder_for_unrenderable_witness :
  exists img w',
    generate_thumbnail Sample.pipeline "lib/b.pdf" 5 Sample.library = (Return img, w')
    /\ img = Image_new (thumbnail_size Sample.pipeline) "lightgray"
    /\ image_size img = Some (thumbnail_size Sample.pipeline).
Proof.
  apply (placeholder_for_unrenderable Sample.pipeline Sample.library "lib/b.pdf"
           "thumbnail_cache/b_e0fcf5698df8_p5.png" 5).
  - vm_compute. reflexivity.
  - vm_compute. reflexivity.
  - right. exists Sample.b_pdf. split; reflexivity.
Defined.

(** ** C8 *)



(** ** C6 *)



(** ** C7 *)



(** ** C9 *)


(** ** C10 *)

Section ZoomFacts.
Import Float.
Local Open Scope Q_scope.


Lemma py_min_spec (a b : Q) : (py_min a b == a \/ py_min a b == b) /\ py_min a b <= a /\ py_min a b <= b.
Proof.
  unfold py_min. destruct (Qle_bool a b) eqn:E.
  - apply Qle_bool_iff in E. repeat split; lra.
  - assert (~ a <= b) by (intros H; apply Qle_bool_iff in H; congruence).
    repeat split; lra.
Qed.

Lemma py_max_spec (a b : Q) : (py_max a b == a \/ py_max a b == b) /\ a <= py_max a b /\ b <= py_max a b.
Proof.
  unfold py_max. destruct (Qle_bool b a) eqn:E.
  - apply Qle_bool_iff in E. repeat split; lra.
  - assert (~ b <= a) by (intros H; apply Qle_bool_iff in H; congruence).
    repeat split; lra.
Qed.

Lemma lit_values :
  lit_0_1 = 3602879701896397 # 36028797018963968 /\
  lit_1_2 = 5404319552844595 # 4503599627370496 /\
  lit_5_0 = 5 /\ lit_1_0 = 1 /\
  round64 lit_0_1 = lit_0_1 /\ round64 lit_5_0 = lit_5_0.
Proof. vm_compute. repeat split. Qed.

Lemma zoom_in_ok (z : Q) :
  zoom_ok z -> zoom_ok (py_min (fmul z lit_1_2) lit_5_0).
Proof.
  intros [L U]. destruct lit_values as (E01 & E12 & E5 & E1 & R01 & R5).
  assert (H : lit_0_1 <= fmul z lit_1_2).
  { rewrite <- R01. apply round64_mono. rewrite E12, E01 in *. nra. }
  destruct (py_min_spec (fmul z lit_1_2) lit_5_0) as ([E|E] & Ha & Hb);
    split; rewrite ?E; first [assumption | lra | rewrite E01, E5; lra].
Qed.

Lemma zoom_out_ok (z : Q) :
  zoom_ok z -> zoom_ok (py_max (fdiv z lit_1_2) lit_0_1).
Proof.
  intros [L U]. destruct lit_values as (E01 & E12 & E5 & E1 & R01 & R5).
  assert (H : fdiv z lit_1_2 <= lit_5_0).
  { rewrite <- R5. apply round64_mono. rewrite E5.
    apply Qle_shift_div_r; rewrite E12, E01, E5 in *; [reflexivity | lra]. }
  destruct (py_max_spec (fdiv z lit_1_2) lit_0_1) as ([E|E] & Ha & Hb);
    split; rewrite ?E; first [assumption | lra | rewrite E01, E5; lra].
Qed.
End ZoomFacts.

Lemma viewer_zoom_update_page_info (self : PDFViewer) :
  viewer_zoom (update_page_info self) = viewer_zoom self.
Proof. unfold update_page_info. destruct (total_pages self >? 0); reflexivity. Qed.

Lemma viewer_zoom_display_current_page (self : PDFViewer) :
  viewer_zoom (display_current_page self) = viewer_zoom self.
Proof.
  unfold display_current_page.
  destruct (current_pdf_doc self) as [doc|]; [|reflexivity].
  destruct (truthy doc); cbn [negb]; [|reflexivity].
  destruct (getitem doc (current_page self)) as [p|e]; [|reflexivity].
  destruct (renders p); [|reflexivity].
  rewrite viewer_zoom_update_page_info. reflexivity.
Qed.

Lemma viewer_zoom_redisplay (self : PDFViewer) :
  viewer_zoom (redisplay self) = viewer_zoom self.
Proof.
  unfold redisplay. destruct (has_selection self); [|reflexivity].
  apply viewer_zoom_display_current_page.
Qed.

Lemma zoom_preserves_range (self : PDFViewer) (op : zoom_op) :
  zoom_ok (viewer_zoom self) -> zoom_ok (viewer_zoom (zoom self op)).
Proof.
  intros H. destruct op; cbn [zoom]; unfold zoom_in, zoom_out, zoom_reset;
    rewrite viewer_zoom_redisplay; cbn [viewer_zoom set_viewer_zoom].
  - apply zoom_in_ok, H.
  - apply zoom_out_ok, H.
  - vm_compute. split; discriminate.
Qed.

(** C10.  From a viewer whose zoom factor is the default 1.0, every
    sequence of [zoom_in], [zoom_out] and [zoom_reset] leaves the zoom
    factor between the floats 0.1 and 5.0, hence between the numbers 1/10
    and 5. *)
Theorem zoom_stays_in_range (self : PDFViewer) (ops : list zoom_op) :
  viewer_zoom self = Float.lit_1_0 ->
  (Float.lit_0_1 <= viewer_zoom (fold_left zoom ops self) <= Float.lit_5_0)%Q
  /\ (1 # 10 <= viewer_zoom (fold_left zoom ops self) <= 5)%Q.
Proof.
  intros H1.
  assert (H : zoom_ok (viewer_zoom (fold_left zoom ops self))).
  { assert (H0 : zoom_ok (viewer_zoom self)).
    { rewrite H1. vm_compute. split; discriminate. }
    clear H1. revert self H0. induction ops as [|op ops IH]; intros self H0; [exact H0|].
    cbn [fold_left]. apply IH, zoom_preserves_range, H0. }
  split; [exact H|]. destruct H as [L U].
  destruct lit_values as (E01 & _ & E5 & _). rewrite E01 in L. rewrite E5 in U.
  split; [|exact U]. eapply Qle_trans; [|exact L]. vm_compute. discriminate.
Qed.

Lemma zoom_stays_in_range_witness :
  (Float.lit_0_1
   <= viewer_zoom (fold_left zoom [ZoomOut; ZoomIn; ZoomIn; ZoomReset; ZoomIn] PDFViewer_init)
   <= Float.lit_5_0)%Q
  /\ (1 # 10
      <= viewer_zoom (fold_left zoom [ZoomOut; ZoomIn; ZoomIn; ZoomReset; ZoomIn] PDFViewer_init)
      <= 5)%Q.
Proof.
  apply (zoom_stays_in_range PDFViewer_init [ZoomOut; ZoomIn; ZoomIn; ZoomReset; ZoomIn]).
  reflexivity.
Defined.

(** ** Further properties *)




(** *** Cache file names *)

Section NameFacts.
Local Open Scope string_scope.

Lemma safe_char_no_slash (c : ascii) : safe_char c = true -> no_slash c = true.
Proof.
  unfold no_slash. destruct (Ascii.eqb_spec c "/"); [subst; discriminate | reflexivity].
Qed.

Lemma int_char_no_slash (c : ascii) : int_char c = true -> no_slash c = true.
Proof.
  unfold no_slash. destruct (Ascii.eqb_spec c "/"); [subst; discriminate | reflexivity].
Qed.

Lemma hex_char_no_slash (c : ascii) : hex_char c = true -> no_slash c = true.
Proof.
  unfold no_slash. destruct (Ascii.eqb_spec c "/"); [subst; discriminate | reflexivity].
Qed.

Lemma safe_filename_no_slash (s : string) :
  PyStr.all_chars no_slash (safe_filename s) = true.
Proof.
  apply (all_chars_impl safe_char); [apply safe_char_no_slash|].
  apply all_chars_rstrip, all_chars_filter.
Qed.

Lemma length_append (a b : string) :
  String.length (a ++ b) = (String.length a + String.length b)%nat.
Proof. induction a as [|c a IH]; cbn; [reflexivity|]. rewrite IH. reflexivity. Qed.

Lemma substring_append_tail (a b : string) :
  substring (String.length a) (String.length b) (a ++ b) = b.
Proof.
  induction a as [|c a IH]; cbn.
  - induction b as [|d b IHb]; cbn; [reflexivity|]. rewrite IHb. reflexivity.
  - exact IH.
Qed.

Lemma ends_with_append (a b : string) : ends_with b (a ++ b) = true.
Proof.
  unfold ends_with. rewrite length_append.
  replace (String.length a + String.length b - String.length b)%nat
    with (String.length a) by lia.
  rewrite substring_append_tail, String.eqb_refl.
  rewrite andb_true_r. apply Nat.leb_le. lia.
Qed.
End NameFacts.

(** X3.  The cache file is always a [.png] file directly inside the cache
    directory: whatever the path of the document, its name contains no
    slash. *)
Theorem cache_file_stays_in_cache_dir (self : ThumbnailWorker) (pdf_path : string)
    (page_num : Z) (w : world) :
  exists name,
    get_cache_filename self pdf_path page_num w = (Return (path_div (cache_dir self) name), w)
    /\ PyStr.all_chars no_slash name = true
    /\ ends_with ".png" name = true.
Proof.
  unfold get_cache_filename, try_except, bind, ret.
  assert (T : forall n, PyStr.all_chars no_slash (PyStr.str_int n) = true).
  { intros n. apply (all_chars_impl int_char); [apply int_char_no_slash | apply str_int_chars]. }
  destruct (os_stat w pdf_path) as [st|e]; eexists; (split; [reflexivity|]); split.
  - rewrite !all_chars_app, safe_filename_no_slash, T. cbn.
    rewrite (all_chars_impl hex_char no_slash _ hex_char_no_slash); [reflexivity|].
    apply hash_name_shape.
  - rewrite <- !append_assoc. apply ends_with_append.
  - rewrite !all_chars_app, safe_filename_no_slash, T. reflexivity.
  - rewrite <- !append_assoc. apply ends_with_append.
Qed.

(** *** The generator and its cache *)

Lemma get_cache_filename_sources (self : ThumbnailWorker) (pdf_path : string) (n : Z)
    (w w' : world) :
  os_stat w' = os_stat w ->
  fst (get_cache_filename self pdf_path n w') = fst (get_cache_filename self pdf_path n w).
Proof.
  intros E. unfold get_cache_filename, try_except, bind, ret. rewrite E.
  destruct (os_stat w pdf_path); reflexivity.
Qed.

Lemma remove_first_head (x : string) (l : list string) : remove_first x (x :: l) = l.
Proof. cbn. rewrite String.eqb_refl. reflexivity. Qed.

(** The five ways [regenerate] ends. *)
Lemma regenerate_cases (self : ThumbnailWorker) (f pdf_path : string) (n : Z) (w : world) :
  let placeholder := Image_new (thumbnail_size self) "lightgray" in
  match fitz_open w pdf_path with
  | Raise _ => regenerate self f pdf_path n w = (Return placeholder, w)
  | Return doc =>
      let leak := if truthy doc then open_docs w else doc_name doc :: open_docs w in
      match getitem doc (chosen_page doc n) with
      | Raise _ => regenerate self f pdf_path n w = (Return placeholder, set_open_docs w leak)
      | Return p =>
          if renders p then
            if cache_writable w then
              regenerate self f pdf_path n w
              = (Return (Page_thumbnail p (thumbnail_size self)),
                 set_open_docs
                   (set_cache_file w f (PNG (Page_thumbnail p (thumbnail_size self)))) leak)
            else regenerate self f pdf_path n w = (Return placeholder, set_open_docs w leak)
          else regenerate self f pdf_path n w = (Return placeholder, set_open_docs w leak)
      end
  end.
Proof.
  cbv zeta. unfold regenerate, fitz_open_doc.
  destruct (fitz_open w pdf_path) as [doc|e]; [|reflexivity].
  unfold try_finally, try_except, render_and_store, bind, lift,
    render_thumbnail, Image_save, create_placeholder_thumbnail, close, ret, raise.
  destruct (getitem doc (chosen_page doc n)) as [p|e];
    [destruct (renders p); [destruct (cache_writable w) eqn:Ew|]|];
    destruct (truthy doc); cbn; rewrite ?Ew; cbn; rewrite ?String.eqb_refl; reflexivity.
Qed.

Lemma generate_thumbnail_unfold (self : ThumbnailWorker) (pdf_path f : string) (n : Z) (w : world) :
  fst (get_cache_filename self pdf_path n w) = Return f ->
  generate_thumbnail self pdf_path n w
  = match fst (cache_lookup f w) with
    | Return (Some img) => (Return img, w)
    | _ => regenerate self f pdf_path n w
    end.
Proof.
  intros Hf. unfold generate_thumbnail, bind.
  destruct (get_cache_filename_total self pdf_path n w) as [f' Ef].
  rewrite Ef in Hf |- *. cbn in Hf. injection Hf as ->.
  destruct (cache_lookup_total f w) as [[img|] ->]; reflexivity.
Qed.

Lemma cache_lookup_stored (f : string) (img : image) (w : world) :
  cache_files w f = Some (PNG img) -> cache_lookup f w = (Return (Some img), w).
Proof.
  intros E. unfold cache_lookup, bind, exists_, try_except, Image_open, ret.
  rewrite E. cbn. rewrite E. reflexivity.
Qed.

(** X4.  A page thumbnail, once returned, is served from the cache: the same
    call in the world the first one left returns the same image and
    changes nothing, the document is not opened again. *)
Theorem thumbnail_is_cached (self : ThumbnailWorker) (pdf_path : string) (n : Z)
    (w w' : world) (p : page) (bound : nat * nat) :
  generate_thumbnail self pdf_path n w = (Return (Page_thumbnail p bound), w') ->
  generate_thumbnail self pdf_path n w' = (Return (Page_thumbnail p bound), w').
Proof.
  intros E.
  destruct (get_cache_filename_total self pdf_path n w) as [f Ef].
  assert (Hf : fst (get_cache_filename self pdf_path n w) = Return f) by (rewrite Ef; reflexivity).
  rewrite (generate_thumbnail_unfold _ _ f _ _ Hf) in E.
  destruct (cache_lookup_total f w) as [[img|] El]; rewrite El in E; cbn [fst] in E.
  - injection E as -> ->.
    rewrite (generate_thumbnail_unfold _ _ f _ _ Hf), El. reflexivity.
  - pose proof (regenerate_cases self f pdf_path n w) as C. cbv zeta in C.
    assert (S : cache_files w' f = Some (PNG (Page_thumbnail p bound)) /\ os_stat w' = os_stat w).
    { destruct (fitz_open w pdf_path) as [doc|e]; [|rewrite C in E; discriminate].
      destruct (getitem doc (chosen_page doc n)) as [q|e]; [|rewrite C in E; discriminate].
      destruct (renders q); [|rewrite C in E; discriminate].
      destruct (cache_writable w); rewrite C in E; [|discriminate].
      injection E as Eq Eb Ew. subst w'. cbn. rewrite String.eqb_refl, Eq, Eb. split; reflexivity. }
    destruct S as [Sc Ss].
    assert (Hf' : fst (get_cache_filename self pdf_path n w') = Return f).
    { rewrite (get_cache_filename_sources _ _ _ w w' Ss). exact Hf. }
    rewrite (generate_thumbnail_unfold _ _ f _ _ Hf'), (cache_lookup_stored _ _ _ Sc).
    reflexivity.
Qed.

Lemma thumbnail_is_cached_witness :
  generate_thumbnail Sample.pipeline "lib/a.pdf" 5
    (snd (generate_thumbnail Sample.pipeline "lib/a.pdf" 5 Sample.library))
  = (Return (Page_thumbnail (Page 10 true) (100%nat, 140%nat)),
     snd (generate_thumbnail Sample.pipeline "lib/a.pdf" 5 Sample.library)).
Proof.
  apply (thumbnail_is_cached Sample.pipeline "lib/a.pdf" 5 Sample.library).
  vm_compute. reflexivity.
Defined.

(** X5.  [generate_thumbnail] closes the document it opened, except a
    document without pages: [if doc:] is false of it, and its handle stays
    open.  On a cache hit and when the document does not open there is no
    handle. *)
Theorem generate_thumbnail_handles (self : ThumbnailWorker) (pdf_path f : string) (n : Z)
    (w : world) :
  fst (get_cache_filename self pdf_path n w) = Return f ->
  open_docs (snd (generate_thumbnail self pdf_path n w))
  = match fst (cache_lookup f w), fitz_open w pdf_path with
    | Return None, Return doc =>
        if len doc =? 0 then doc_name doc :: open_docs w else open_docs w
    | _, _ => open_docs w
    end.
Proof.
  intros Hf. rewrite (generate_thumbnail_unfold _ _ f _ _ Hf).
  destruct (cache_lookup_total f w) as [[img|] El]; rewrite El; cbn [fst snd].
  - reflexivity.
  - pose proof (regenerate_cases self f pdf_path n w) as C. cbv zeta in C.
    destruct (fitz_open w pdf_path) as [doc|e]; [|rewrite C; reflexivity].
    unfold truthy in C.
    destruct (getitem doc (chosen_page doc n)) as [q|e];
      [destruct (renders q); [destruct (cache_writable w)|]|];
      rewrite C; cbn [snd open_docs set_open_docs];
      destruct (len doc =? 0); reflexivity.
Qed.

Lemma generate_thumbnail_handles_witness :
  open_docs (snd (generate_thumbnail Sample.pipeline "lib/b.pdf" 5 Sample.library))
  = ["lib/b.pdf"].
Proof.
  exact (generate_thumbnail_handles Sample.pipeline "lib/b.pdf"
           "thumbnail_cache/b_e0fcf5698df8_p5.png" 5 Sample.library
           ltac:(vm_compute; reflexivity)).
Defined.

(** X6.  When the cache directory cannot be written the thumbnail that was
    rendered is dropped: after a miss [generate_thumbnail] returns the
    placeholder, even for a page that renders, and stores nothing. *)
Theorem unwritable_cache_gives_placeholder (self : ThumbnailWorker) (pdf_path f : string)
    (n : Z) (w : world) :
  fst (get_cache_filename self pdf_path n w) = Return f ->
  fst (cache_lookup f w) = Return None ->
  cache_writable w = false ->
  fst (generate_thumbnail self pdf_path n w)
  = Return (Image_new (thumbnail_size self) "lightgray")
  /\ cache_files (snd (generate_thumbnail self pdf_path n w)) = cache_files w.
Proof.
  intros Hf Hmiss Hw. rewrite (generate_thumbnail_unfold _ _ f _ _ Hf), Hmiss.
  pose proof (regenerate_cases self f pdf_path n w) as C. cbv zeta in C.
  rewrite Hw in C.
  destruct (fitz_open w pdf_path) as [doc|e]; [|rewrite C; split; reflexivity].
  destruct (getitem doc (chosen_page doc n)) as [q|e];
    [destruct (renders q)|]; rewrite C; split; reflexivity.
Qed.

Lemma unwritable_cache_gives_placeholder_witness :
  fst (generate_thumbnail Sample.pipeline "lib/a.pdf" 5 read_only_library)
  = Return (Image_new (100%nat, 140%nat) "lightgray")
  /\ cache_files (snd (generate_thumbnail Sample.pipeline "lib/a.pdf" 5 read_only_library))
     = cache_files read_only_library.
Proof.
  apply (unwritable_cache_gives_placeholder Sample.pipeline "lib/a.pdf"
           "thumbnail_cache/a_37c44c41652a_p5.png" 5 read_only_library);
    vm_compute; reflexivity.
Defined.

(** *** Exact floats and the direction of zooming *)

Section ExactFloats.
Import Float.
Local Open Scope Q_scope.

Lemma ilog2_unique (x : Q) (k : Z) :
  0 < x -> pow2 k <= x -> x < pow2 (k + 1) -> ilog2 x = k.
Proof.
  intros Hx L U. destruct (ilog2_spec x Hx) as [L' U'].
  destruct (Z.lt_trichotomy (ilog2 x) k) as [H|[H|H]]; [exfalso | exact H | exfalso].
  - assert (pow2 (ilog2 x + 1) <= pow2 k) by (apply pow2_le; lia). lra.
  - assert (pow2 (k + 1) <= pow2 (ilog2 x)) by (apply pow2_le; lia). lra.
Qed.

Lemma rne_comp (x y : Q) : x == y -> rne x = rne y.
Proof.
  intros E. unfold rne. rewrite (Qfloor_comp _ _ E).
  rewrite (Qcompare_comp (x - inject_Z (Qfloor y)) (y - inject_Z (Qfloor y))
             ltac:(rewrite E; reflexivity) (1 # 2) (1 # 2) ltac:(reflexivity)).
  reflexivity.
Qed.

Lemma exponent_comp (x y : Q) : 0 < x -> x == y -> exponent x = exponent y.
Proof.
  intros Hx E. unfold exponent. f_equal. f_equal.
  assert (Hy : 0 < y) by (rewrite <- E; exact Hx).
  destruct (ilog2_spec y Hy) as [L U].
  apply ilog2_unique; [exact Hx | rewrite E; exact L | rewrite E; exact U].
Qed.

Lemma round_pos_comp (x y : Q) : 0 < x -> x == y -> round_pos x == round_pos y.
Proof.
  intros Hx E. rewrite !round_pos_eq. rewrite (exponent_comp x y Hx E).
  assert (Es : x / pow2 (exponent y) == y / pow2 (exponent y)) by (rewrite E; reflexivity).
  rewrite (rne_comp _ _ Es). reflexivity.
Qed.

(** An integer of at most 53 bits, scaled by a power of two that binary64
    has, is a fixed point of the rounding. *)
Lemma round_pos_exact (m e : Z) :
  (0 < m <= 2 ^ 53)%Z -> (-1074 <= e)%Z ->
  round_pos (inject_Z m * pow2 e) == inject_Z m * pow2 e.
Proof.
  intros Hm He. set (x := inject_Z m * pow2 e).
  assert (Hpe : 0 < pow2 e) by apply pow2_pos.
  assert (Hx : 0 < x).
  { unfold x. apply Qmult_lt_0_compat; [|exact Hpe].
    change 0 with (inject_Z 0). rewrite <- Zlt_Qlt. lia. }
  set (l := Z.log2 m).
  assert (Hl : (2 ^ l <= m < 2 ^ Z.succ l)%Z) by (apply Z.log2_spec; lia).
  assert (Hl0 : (0 <= l)%Z) by apply Z.log2_nonneg.
  assert (Hl53 : (l <= 53)%Z).
  { destruct (Z_le_gt_dec l 53) as [|G]; [assumption|exfalso].
    assert ((2 ^ 54 <= 2 ^ l)%Z) by (apply Z.pow_le_mono_r; lia). lia. }
  assert (Hlog : ilog2 x = (l + e)%Z).
  { apply ilog2_unique; [exact Hx| |].
    - unfold x. rewrite pow2_add. apply Qmult_le_compat_r; [|lra].
      rewrite pow2_inject by lia. rewrite <- Zle_Qle. lia.
    - unfold x. replace (l + e + 1)%Z with (Z.succ l + e)%Z by lia.
      rewrite pow2_add. apply Qmult_lt_compat_r; [exact Hpe|].
      rewrite pow2_inject by lia. rewrite <- Zlt_Qlt. lia. }
  rewrite round_pos_eq. fold x.
  assert (Hexp : exponent x = Z.max (l + e - 52) (-1074)) by (unfold exponent; rewrite Hlog; reflexivity).
  set (e' := exponent x) in *.
  assert (Hpe' : 0 < pow2 e') by apply pow2_pos.
  assert (Hint : exists n : Z, x == inject_Z n * pow2 e').
  { destruct (Z_le_gt_dec e' e) as [Hle|Hgt].
    - exists (m * 2 ^ (e - e'))%Z.
      rewrite inject_Z_mult, <- pow2_inject by lia.
      rewrite <- Qmult_assoc, <- pow2_add.
      replace (e - e' + e')%Z with e by lia. reflexivity.
    - assert (El : l = 53%Z) by lia.
      assert (Em : m = (2 ^ 53)%Z) by (rewrite El in Hl; lia).
      assert (Ee : e' = (e + 1)%Z) by lia.
      exists (2 ^ 52)%Z. unfold x. rewrite Em, Ee.
      rewrite <- !pow2_inject by lia. rewrite <- !pow2_add.
      replace (52 + (e + 1))%Z with (53 + e)%Z by lia. reflexivity. }
  destruct Hint as [n Hn].
  assert (Hs : x / pow2 e' == inject_Z n).
  { rewrite Hn. field. intros H. rewrite H in Hpe'. discriminate. }
  rewrite (rne_comp _ _ Hs), rne_inject. symmetry. exact Hn.
Qed.

Lemma scaled_is_representable (v : Q) (m e : Z) :
  (0 < m <= 2 ^ 53)%Z -> (-1074 <= e)%Z -> v == inject_Z m * pow2 e -> representable v.
Proof.
  intros Hm He Ev. unfold representable.
  assert (P : 0 < v).
  { rewrite Ev. apply Qmult_lt_0_compat; [|apply pow2_pos].
    change 0 with (inject_Z 0). rewrite <- Zlt_Qlt. lia. }
  unfold round64.
  destruct (Qcompare_spec (Qred v) 0) as [E'|L'|G'];
    try (rewrite Qred_correct in *; exfalso; lra).
  rewrite (round_pos_comp (Qred v) (inject_Z m * pow2 e) G')
    by (rewrite Qred_correct; exact Ev).
  rewrite round_pos_exact by assumption. symmetry. exact Ev.
Qed.

(** The rounding returns what binary64 holds exactly. *)
Lemma round64_representable (x : Q) : 0 <= x -> representable (round64 x).
Proof.
  intros Hx.
  assert (S : round64 x == 0
              \/ exists m e, (0 < m <= 2 ^ 53)%Z /\ (-1074 <= e)%Z
                             /\ round64 x == inject_Z m * pow2 e).
  { unfold round64.
    destruct (Qcompare_spec (Qred x) 0) as [E|L|G].
    - left. reflexivity.
    - rewrite Qred_correct in L. exfalso. lra.
    - set (y := Qred x) in *.
      pose proof (round_pos_eq y) as Ey.
      set (m := rne (y / pow2 (exponent y))) in *.
      assert (Hm : (0 <= m <= 2 ^ 53)%Z).
      { split.
        - apply rne_ge_int. apply Qle_shift_div_l; [apply pow2_pos|].
          change (inject_Z 0) with 0. lra.
        - apply rne_le_int, Qlt_le_weak, scaled_lt_2_53, G. }
      destruct (Z.eq_dec m 0) as [Z0|NZ].
      + left. rewrite Ey, Z0. ring.
      + right. exists m, (exponent y). repeat split; try lia; [unfold exponent; lia | exact Ey]. }
  destruct S as [E0 | (m & e & Hm & He & Ev)].
  - unfold representable. rewrite (round64_comp _ _ E0). rewrite E0. reflexivity.
  - exact (scaled_is_representable _ m e Hm He Ev).
Qed.
End ExactFloats.

Section ZoomDirection.
Import Float.
Local Open Scope Q_scope.

Lemma py_min_choice (a b : Q) : py_min a b = a \/ py_min a b = b.
Proof. unfold py_min. destruct (Qle_bool a b); auto. Qed.

Lemma py_max_choice (a b : Q) : py_max a b = a \/ py_max a b = b.
Proof. unfold py_max. destruct (Qle_bool b a); auto. Qed.

Lemma zoom_keeps_exact (self : PDFViewer) (op : zoom_op) :
  zoom_ok (viewer_zoom self) -> representable (viewer_zoom self) ->
  representable (viewer_zoom (zoom self op)).
Proof.
  intros [L U] R. destruct lit_values as (E01 & E12 & E5 & E1 & R01 & R5).
  assert (P : 0 <= viewer_zoom self) by (rewrite E01 in L; lra).
  destruct op; cbn [zoom]; unfold zoom_in, zoom_out, zoom_reset;
    rewrite viewer_zoom_redisplay; cbn [viewer_zoom set_viewer_zoom].
  - destruct (py_min_choice (fmul (viewer_zoom self) lit_1_2) lit_5_0) as [-> | ->].
    + apply round64_representable. rewrite E12. nra.
    + unfold representable. rewrite R5. reflexivity.
  - destruct (py_max_choice (fdiv (viewer_zoom self) lit_1_2) lit_0_1) as [-> | ->].
    + apply round64_representable. rewrite E12. apply Qle_shift_div_l; [reflexivity | lra].
    + unfold representable. rewrite R01. reflexivity.
  - unfold representable. vm_compute. reflexivity.
Qed.

Lemma zoom_reachable (ops : list zoom_op) :
  forall self, zoom_ok (viewer_zoom self) -> representable (viewer_zoom self) ->
  zoom_ok (viewer_zoom (fold_left zoom ops self))
  /\ representable (viewer_zoom (fold_left zoom ops self)).
Proof.
  induction ops as [|op ops IH]; intros self H R; [split; assumption|].
  cbn [fold_left]. apply IH; [apply zoom_preserves_range, H | apply zoom_keeps_exact; assumption].
Qed.
End ZoomDirection.

(** X7.  After any sequence of zoom operations from the default factor,
    [zoom_in] does not make the factor smaller and [zoom_out] does not make
    it larger, the rounding of the float product and quotient
    notwithstanding. *)
Theorem zoom_in_grows_zoom_out_shrinks (self : PDFViewer) (ops : list zoom_op) :
  viewer_zoom self = Float.lit_1_0 ->
  (viewer_zoom (fold_left zoom ops self)
   <= viewer_zoom (zoom_in (fold_left zoom ops self)))%Q
  /\ (viewer_zoom (zoom_out (fold_left zoom ops self))
      <= viewer_zoom (fold_left zoom ops self))%Q.
Proof.
  intros H1.
  assert (H0 : zoom_ok (viewer_zoom self) /\ representable (viewer_zoom self)).
  { rewrite H1. split; [vm_compute; split; discriminate | vm_compute; reflexivity]. }
  destruct (zoom_reachable ops self (proj1 H0) (proj2 H0)) as [[L U] R].
  set (v := fold_left zoom ops self) in *.
  destruct lit_values as (E01 & E12 & E5 & E1 & R01 & R5).
  unfold representable in R.
  unfold zoom_in, zoom_out. rewrite !viewer_zoom_redisplay.
  cbn [viewer_zoom set_viewer_zoom]. rewrite E01 in L. rewrite E5 in U. split.
  - assert (A : (viewer_zoom v <= Float.fmul (viewer_zoom v) Float.lit_1_2)%Q).
    { rewrite <- R at 1. apply round64_mono. rewrite E12. nra. }
    destruct (py_min_spec (Float.fmul (viewer_zoom v) Float.lit_1_2) Float.lit_5_0)
      as ([E|E] & _); rewrite E; [exact A | rewrite E5; exact U].
  - assert (A : (Float.fdiv (viewer_zoom v) Float.lit_1_2 <= viewer_zoom v)%Q).
    { rewrite <- R at 2. apply round64_mono. rewrite E12.
      apply Qle_shift_div_r; [reflexivity | lra]. }
    destruct (py_max_spec (Float.fdiv (viewer_zoom v) Float.lit_1_2) Float.lit_0_1)
      as ([E|E] & _); rewrite E; [exact A | rewrite E01; exact L].
Qed.

Lemma zoom_in_grows_zoom_out_shrinks_witness :
  (viewer_zoom (fold_left zoom [ZoomIn; ZoomIn; ZoomOut] PDFViewer_init)
   <= viewer_zoom (zoom_in (fold_left zoom [ZoomIn; ZoomIn; ZoomOut] PDFViewer_init)))%Q
  /\ (viewer_zoom (zoom_out (fold_left zoom [ZoomIn; ZoomIn; ZoomOut] PDFViewer_init))
      <= viewer_zoom (fold_left zoom [ZoomIn; ZoomIn; ZoomOut] PDFViewer_init))%Q.
Proof.
  apply (zoom_in_grows_zoom_out_shrinks PDFViewer_init [ZoomIn; ZoomIn; ZoomOut]).
  reflexivity.
Defined.

(** *** Page navigation *)

Lemma update_page_info_frame (self : PDFViewer) :
  current_pdf_doc (update_page_info self) = current_pdf_doc self
  /\ current_page (update_page_info self) = current_page self
  /\ total_pages (update_page_info self) = total_pages self
  /\ selected_pdf (update_page_info self) = selected_pdf self.
Proof. unfold update_page_info. destruct (total_pages self >? 0); repeat split. Qed.

(** Rendering moves neither the document nor the page. *)
Lemma display_current_page_frame (self : PDFViewer) :
  current_pdf_doc (display_current_page self) = current_pdf_doc self
  /\ current_page (display_current_page self) = current_page self
  /\ total_pages (display_current_page self) = total_pages self
  /\ selected_pdf (display_current_page self) = selected_pdf self.
Proof.
  unfold display_current_page.
  destruct (current_pdf_doc self) as [doc|] eqn:E; [|rewrite E; repeat split].
  destruct (truthy doc); cbn [negb]; [|rewrite E; repeat split].
  destruct (getitem doc (current_page self)) as [p|e]; [|rewrite E; repeat split].
  destruct (renders p); [|rewrite E; repeat split].
  destruct (update_page_info_frame
              (Viewer (Some doc) (current_page self) (total_pages self) (viewer_zoom self)
                      (selected_pdf self) (Pixmap p (Float.fmul (viewer_zoom self) Float.lit_2_5))
                      (page_label self) (page_entry self))) as (A & B & C & D).
  rewrite A, B, C, D. repeat split.
Qed.

Lemma shows_display (doc : document) (self : PDFViewer) :
  shows doc self -> shows doc (display_current_page self).
Proof.
  unfold shows. destruct (display_current_page_frame self) as (A & B & C & _).
  rewrite A, B, C. tauto.
Qed.

Lemma shows_redisplay (doc : document) (self : PDFViewer) :
  shows doc self -> shows doc (redisplay self).
Proof.
  unfold redisplay. destruct (has_selection self); [apply shows_display | tauto].
Qed.

Lemma shows_handle (doc : document) (self : PDFViewer) (a : viewer_action) :
  shows doc self -> shows doc (handle self a).
Proof.
  intros H. pose proof H as (Hd & Ht & Hp). destruct a as [| |text|op]; cbn [handle].
  - unfold previous_page.
    destruct (has_document self && (current_page self >? 0)) eqn:G; [|exact H].
    apply andb_true_iff in G as [_ G]. apply Z.gtb_lt in G.
    apply shows_display. repeat split; cbn; try assumption; lia.
  - unfold next_page.
    destruct (has_document self && (current_page self <? total_pages self - 1)) eqn:G;
      [|exact H].
    apply andb_true_iff in G as [_ G]. apply Z.ltb_lt in G.
    apply shows_display. repeat split; cbn; try assumption; lia.
  - unfold go_to_page. cbn [page_entry set_page_entry total_pages].
    assert (H' : shows doc (set_page_entry self text)) by exact H.
    destruct (PyInt.int text) as [n|e]; [|exact H'].
    destruct ((0 <=? n - 1) && (n - 1 <? total_pages self)) eqn:G; [|exact H'].
    apply andb_true_iff in G as [G1 G2]. apply Z.leb_le in G1. apply Z.ltb_lt in G2.
    apply shows_display. repeat split; cbn; try assumption; lia.
  - destruct op; cbn [zoom]; unfold zoom_in, zoom_out, zoom_reset;
      apply shows_redisplay; exact H.
Qed.

Lemma shows_handle_all (doc : document) (actions : list viewer_action) :
  forall self, shows doc self -> shows doc (fold_left handle actions self).
Proof.
  induction actions as [|a rest IH]; intros self H; [exact H|].
  cbn [fold_left]. apply IH, shows_handle, H.
Qed.

(** What [display_pdf] leaves when the document opens. *)
Lemma display_pdf_opens (self : PDFViewer) (pdf_path : string) (w : world) (doc : document) :
  fitz_open w pdf_path = Return doc ->
  exists w',
    display_pdf self pdf_path w
    = (Return (display_current_page
                 (Viewer (Some doc) (Z.min 0 (len doc - 1)) (len doc) (viewer_zoom self)
                         (Some pdf_path) (image_label self) (page_label self)
                         (page_entry self))), w')
    /\ open_docs w'
       = (if has_document self
          then match current_pdf_doc self with
               | Some old => remove_first (doc_name old) (doc_name doc :: open_docs w)
               | None => doc_name doc :: open_docs w
               end
          else doc_name doc :: open_docs w)
    /\ dialogs w' = dialogs w /\ signals w' = signals w.
Proof.
  intros E. unfold display_pdf, try_except, bind, fitz_open_doc, has_document.
  cbn [current_pdf_doc set_selected_pdf viewer_zoom selected_pdf image_label page_label page_entry].
  rewrite E. destruct (current_pdf_doc self) as [old|]; [destruct (truthy old)|];
    cbn; eexists; repeat split.
Qed.

(** X8.  Once a document with pages is displayed, no use of the toolbar
    (previous, next, go to any text, zoom) takes the viewer off the
    document: the page index stays within it and the page exists. *)
Theorem navigation_stays_in_document (self : PDFViewer) (pdf_path : string) (w : world)
    (doc : document) (actions : list viewer_action) :
  fitz_open w pdf_path = Return doc ->
  1 <= len doc ->
  exists shown w',
    display_pdf self pdf_path w = (Return shown, w')
    /\ current_page shown = 0
    /\ current_pdf_doc (fold_left handle actions shown) = Some doc
    /\ total_pages (fold_left handle actions shown) = len doc
    /\ 0 <= current_page (fold_left handle actions shown) < len doc
    /\ exists p, getitem doc (current_page (fold_left handle actions shown)) = Return p.
Proof.
  intros E Hlen. destruct (display_pdf_opens self pdf_path w doc E) as (w' & Ed & _).
  eexists. exists w'. split; [exact Ed|].
  set (v0 := Viewer (Some doc) (Z.min 0 (len doc - 1)) (len doc) (viewer_zoom self)
                    (Some pdf_path) (image_label self) (page_label self) (page_entry self)).
  assert (S0 : shows doc v0) by (unfold shows, v0; cbn; repeat split; lia).
  destruct (display_current_page_frame v0) as (_ & B & _).
  split; [rewrite B; unfold v0; cbn; lia|].
  destruct (shows_handle_all doc actions _ (shows_display doc v0 S0)) as (A1 & A2 & A3).
  repeat split; try assumption; try lia.
  unfold getitem. destruct (Z.ltb_spec (current_page (fold_left handle actions (display_current_page v0))) (len doc)) as [L|L]; [|lia].
  set (i := current_page (fold_left handle actions (display_current_page v0))) in *.
  destruct (nth_error (doc_pages doc) (Z.to_nat (i mod len doc))) as [p|] eqn:N; [eexists; reflexivity|].
  exfalso. apply nth_error_None in N. unfold len in *.
  rewrite Z.mod_small in N by lia. lia.
Qed.

Lemma navigation_stays_in_document_witness :
  exists shown w',
    display_pdf PDFViewer_init "lib/a.pdf" Sample.library = (Return shown, w')
    /\ current_page shown = 0
    /\ current_pdf_doc (fold_left handle [Next; Next; Next; GoTo "7"; Previous] shown)
       = Some Sample.a_pdf
    /\ total_pages (fold_left handle [Next; Next; Next; GoTo "7"; Previous] shown)
       = len Sample.a_pdf
    /\ 0 <= current_page (fold_left handle [Next; Next; Next; GoTo "7"; Previous] shown)
       < len Sample.a_pdf
    /\ exists p,
         getitem Sample.a_pdf
           (current_page (fold_left handle [Next; Next; Next; GoTo "7"; Previous] shown))
         = Return p.
Proof.
  apply (navigation_stays_in_document PDFViewer_init "lib/a.pdf" Sample.library Sample.a_pdf).
  - reflexivity.
  - vm_compute. discriminate.
Defined.

(** *** The page entry *)

Section IntOfStr.
Import PyInt.

Lemma rstrip_no_space (s : string) :
  PyStr.all_chars (fun c => negb (isspace c)) s = true -> rstrip s = s.
Proof.
  induction s as [|c s IH]; cbn [rstrip PyStr.all_chars]; [reflexivity|].
  intros E. apply andb_true_iff in E as [E1 E2]. rewrite (IH E2).
  apply negb_true_iff in E1. rewrite E1. destruct s; reflexivity.
Qed.

Lemma lstrip_no_space (s : string) :
  PyStr.all_chars (fun c => negb (isspace c)) s = true -> lstrip s = s.
Proof.
  destruct s as [|c s]; cbn [lstrip PyStr.all_chars]; [reflexivity|].
  intros E. apply andb_true_iff in E as [E1 _].
  apply negb_true_iff in E1. rewrite E1. reflexivity.
Qed.

Lemma int_char_no_space (c : ascii) : int_char c = true -> negb (isspace c) = true.
Proof.
  destruct c as [[] [] [] [] [] [] [] []]; cbv; intros H; try reflexivity; discriminate H.
Qed.

Lemma uint_digits (d : Decimal.uint) :
  digits (NilEmpty.string_of_uint d) true = Some (NilEmpty.string_of_uint d).
Proof.
  induction d; cbn [NilEmpty.string_of_uint digits]; try reflexivity;
    (change (isdigit _) with true; cbn iota; rewrite IHd; reflexivity).
Qed.

Lemma uint_digits_nonnil (d : Decimal.uint) :
  d <> Decimal.Nil ->
  digits (NilEmpty.string_of_uint d) false = Some (NilEmpty.string_of_uint d).
Proof.
  destruct d; intros H; [contradiction| ..];
    cbn [NilEmpty.string_of_uint digits]; change (isdigit _) with true; cbn iota;
    rewrite uint_digits; reflexivity.
Qed.

Lemma magnitude_uint (d : Decimal.uint) :
  d <> Decimal.Nil -> magnitude (NilEmpty.string_of_uint d) = Return (Z.of_uint d).
Proof.
  intros H. unfold magnitude. rewrite (uint_digits_nonnil d H), NilEmpty.usu. reflexivity.
Qed.

(** A string that begins with a digit has no sign. *)
Lemma int_unsigned (c : ascii) (r : string) :
  isdigit c = true -> lstrip (rstrip (String c r)) = String c r ->
  int (String c r) = magnitude (String c r).
Proof.
  intros Hd Hs. unfold int. rewrite Hs.
  destruct c as [[] [] [] [] [] [] [] []]; try discriminate Hd; reflexivity.
Qed.

Lemma uint_first_digit (d : Decimal.uint) :
  d <> Decimal.Nil ->
  exists c r, NilEmpty.string_of_uint d = String c r /\ isdigit c = true.
Proof.
  destruct d; intros H; [contradiction| ..]; cbn [NilEmpty.string_of_uint];
    eexists; eexists; split; reflexivity.
Qed.

Lemma strip_uint (d : Decimal.uint) :
  lstrip (rstrip (NilEmpty.string_of_uint d)) = NilEmpty.string_of_uint d.
Proof.
  assert (H : PyStr.all_chars (fun c => negb (isspace c)) (NilEmpty.string_of_uint d) = true).
  { apply (all_chars_impl int_char); [apply int_char_no_space | apply int_chars_uint]. }
  rewrite (rstrip_no_space _ H). apply lstrip_no_space, H.
Qed.

Lemma int_of_uint (d : Decimal.uint) :
  d <> Decimal.Nil -> int (NilEmpty.string_of_uint d) = Return (Z.of_uint d).
Proof.
  intros H. destruct (uint_first_digit d H) as (c & r & E & Hc).
  pose proof (strip_uint d) as S. rewrite E in S.
  rewrite <- (magnitude_uint d H). rewrite E. apply int_unsigned; assumption.
Qed.

(** [int(str(n)) == n] *)
Lemma int_str (n : Z) : int (PyStr.str_int n) = Return n.
Proof.
  unfold PyStr.str_int. destruct n as [|p|p]; cbn [Z.to_int NilZero.string_of_int].
  - reflexivity.
  - pose proof (Unsigned.to_uint_nonnil p) as H.
    assert (E : NilZero.string_of_uint (Pos.to_uint p) = NilEmpty.string_of_uint (Pos.to_uint p)).
    { unfold NilZero.string_of_uint. destruct (Pos.to_uint p); [contradiction| ..]; reflexivity. }
    rewrite E, (int_of_uint _ H).
    pose proof (DecimalZ.of_to (Z.pos p)) as R. cbn in R. rewrite R. reflexivity.
  - pose proof (Unsigned.to_uint_nonnil p) as H.
    assert (E : NilZero.string_of_uint (Pos.to_uint p) = NilEmpty.string_of_uint (Pos.to_uint p)).
    { unfold NilZero.string_of_uint. destruct (Pos.to_uint p); [contradiction| ..]; reflexivity. }
    rewrite E. unfold int.
    assert (S : lstrip (rstrip (String "-" (NilEmpty.string_of_uint (Pos.to_uint p))))
                = String "-" (NilEmpty.string_of_uint (Pos.to_uint p))).
    { assert (A : PyStr.all_chars (fun c => negb (isspace c))
                    (String "-" (NilEmpty.string_of_uint (Pos.to_uint p))) = true).
      { cbn [PyStr.all_chars]. apply andb_true_iff. split; [reflexivity|].
        apply (all_chars_impl int_char); [apply int_char_no_space | apply int_chars_uint]. }
      rewrite (rstrip_no_space _ A). apply lstrip_no_space, A. }
    rewrite S. rewrite (magnitude_uint _ H).
    pose proof (DecimalZ.of_to (Z.neg p)) as R. cbn in R.
    rewrite <- R. reflexivity.
Qed.
End IntOfStr.

(** X9.  Typing the number of a page of the document, as [str] writes it,
    and pressing Return shows that page (the entry counts from 1). *)
Theorem go_to_page_selects (self : PDFViewer) (k : Z) :
  1 <= k <= total_pages self ->
  current_page (handle self (GoTo (PyStr.str_int k))) = k - 1
  /\ total_pages (handle self (GoTo (PyStr.str_int k))) = total_pages self
  /\ current_pdf_doc (handle self (GoTo (PyStr.str_int k))) = current_pdf_doc self.
Proof.
  intros Hk. cbn [handle]. unfold go_to_page.
  cbn [page_entry set_page_entry total_pages]. rewrite int_str.
  destruct (Z.leb_spec 0 (k - 1)); [|lia].
  destruct (Z.ltb_spec (k - 1) (total_pages self)); [|lia]. cbn [andb].
  destruct (display_current_page_frame
              (set_current_page (set_page_entry self (PyStr.str_int k)) (k - 1)))
    as (A & B & C & _).
  rewrite A, B, C. repeat split.
Qed.

Lemma go_to_page_selects_witness :
  current_page (handle (fst Sample.shown_a) (GoTo (PyStr.str_int 3))) = 3 - 1
  /\ total_pages (handle (fst Sample.shown_a) (GoTo (PyStr.str_int 3)))
     = total_pages (fst Sample.shown_a)
  /\ current_pdf_doc (handle (fst Sample.shown_a) (GoTo (PyStr.str_int 3)))
     = current_pdf_doc (fst Sample.shown_a).
Proof.
  apply (go_to_page_selects (fst Sample.shown_a) 3). vm_compute. split; discriminate.
Defined.

(** X10.  Text that [int()] does not accept, or a number outside
    [1..total_pages], changes nothing but the entry itself: the page, the
    image and the labels stay. *)
Theorem go_to_page_rejects (self : PDFViewer) (text : string) :
  (forall n, PyInt.int text = Return n -> n < 1 \/ total_pages self < n) ->
  handle self (GoTo text) = set_page_entry self text.
Proof.
  intros H. cbn [handle]. unfold go_to_page.
  cbn [page_entry set_page_entry total_pages].
  destruct (PyInt.int text) as [n|e]; [|reflexivity].
  destruct (H n eq_refl) as [L|L].
  - destruct (Z.leb_spec 0 (n - 1)); [lia | reflexivity].
  - destruct (Z.ltb_spec (n - 1) (total_pages self)); [lia|].
    rewrite andb_false_r. reflexivity.
Qed.

Lemma go_to_page_rejects_witness :
  handle (fst Sample.shown_a) (GoTo "3.5") = set_page_entry (fst Sample.shown_a) "3.5".
Proof.
  apply (go_to_page_rejects (fst Sample.shown_a) "3.5").
  intros n H. vm_compute in H. discriminate H.
Defined.

Lemma has_document_display (self : PDFViewer) :
  has_document (display_current_page self) = has_document self.
Proof.
  unfold has_document. destruct (display_current_page_frame self) as (A & _).
  rewrite A. reflexivity.
Qed.

(** X11.  With a document open, [next_page] followed by [previous_page]
    comes back to the page, and so does [previous_page] followed by
    [next_page], wherever the first of the two moves; at the last page
    [next_page] does nothing and at the first page [previous_page] does
    nothing. *)
Theorem page_turning (self : PDFViewer) :
  has_document self = true ->
  0 <= current_page self < total_pages self ->
  (current_page self < total_pages self - 1 ->
   current_page (next_page self) = current_page self + 1
   /\ current_page (previous_page (next_page self)) = current_page self)
  /\ (0 < current_page self ->
      current_page (previous_page self) = current_page self - 1
      /\ current_page (next_page (previous_page self)) = current_page self)
  /\ (current_page self = total_pages self - 1 -> next_page self = self)
  /\ (current_page self = 0 -> previous_page self = self).
Proof.
  intros Hd Hp.
  assert (N : current_page self < total_pages self - 1 ->
              next_page self
              = display_current_page (set_current_page self (current_page self + 1))).
  { intros H. unfold next_page. rewrite Hd.
    destruct (Z.ltb_spec (current_page self) (total_pages self - 1)); [reflexivity | lia]. }
  assert (P : 0 < current_page self ->
              previous_page self
              = display_current_page (set_current_page self (current_page self - 1))).
  { intros H. unfold previous_page. rewrite Hd.
    destruct (Z.gtb_spec (current_page self) 0); [reflexivity | lia]. }
  repeat split.
  - rewrite (N H).
    destruct (display_current_page_frame (set_current_page self (current_page self + 1)))
      as (_ & B & _). rewrite B. reflexivity.
  - rewrite (N H).
    set (v := display_current_page (set_current_page self (current_page self + 1))).
    destruct (display_current_page_frame (set_current_page self (current_page self + 1)))
      as (_ & B & C & _). fold v in B, C. cbn in B, C.
    unfold previous_page.
    assert (Hv : has_document v = true) by (unfold v; rewrite has_document_display; exact Hd).
    rewrite Hv, B. destruct (Z.gtb_spec (current_page self + 1) 0); [|lia]. cbn [andb].
    destruct (display_current_page_frame (set_current_page v (current_page self + 1 - 1)))
      as (_ & B' & _). rewrite B'. cbn. lia.
  - rewrite (P H).
    destruct (display_current_page_frame (set_current_page self (current_page self - 1)))
      as (_ & B & _). rewrite B. reflexivity.
  - rewrite (P H).
    set (v := display_current_page (set_current_page self (current_page self - 1))).
    destruct (display_current_page_frame (set_current_page self (current_page self - 1)))
      as (_ & B & C & _). fold v in B, C. cbn in B, C.
    unfold next_page.
    assert (Hv : has_document v = true) by (unfold v; rewrite has_document_display; exact Hd).
    rewrite Hv, B, C. destruct (Z.ltb_spec (current_page self - 1) (total_pages self - 1)); [|lia].
    cbn [andb].
    destruct (display_current_page_frame (set_current_page v (current_page self - 1 + 1)))
      as (_ & B' & _). rewrite B'. cbn. lia.
  - intros H. unfold next_page.
    destruct (Z.ltb_spec (current_page self) (total_pages self - 1)); [lia|].
    rewrite andb_false_r. reflexivity.
  - intros H. unfold previous_page.
    destruct (Z.gtb_spec (current_page self) 0); [lia|].
    rewrite andb_false_r. reflexivity.
Qed.

Lemma page_turning_witness :
  (current_page (fst Sample.shown_a) < total_pages (fst Sample.shown_a) - 1 ->
   current_page (next_page (fst Sample.shown_a)) = current_page (fst Sample.shown_a) + 1
   /\ current_page (previous_page (next_page (fst Sample.shown_a)))
      = current_page (fst Sample.shown_a))
  /\ (0 < current_page (fst Sample.shown_a) ->
      current_page (previous_page (fst Sample.shown_a)) = current_page (fst Sample.shown_a) - 1
      /\ current_page (next_page (previous_page (fst Sample.shown_a)))
         = current_page (fst Sample.shown_a))
  /\ (current_page (fst Sample.shown_a) = total_pages (fst Sample.shown_a) - 1 ->
      next_page (fst Sample.shown_a) = fst Sample.shown_a)
  /\ (current_page (fst Sample.shown_a) = 0 ->
      previous_page (fst Sample.shown_a) = fst Sample.shown_a).
Proof.
  apply (page_turning (fst Sample.shown_a)).
  - reflexivity.
  - vm_compute. split; [discriminate | reflexivity].
Defined.

(** *** The thumbnail grid *)

Import PyText PyList PyDict.



(** What the loop of [load_thumbnails_async] has made after the files
    [files], numbered from [k], on top of what was there. *)
Lemma add_placeholders (folder : string) (files : list string) :
  forall (k : nat) (self : PDFLibraryWidget),
  let self' := fold_left (add_placeholder folder)
                         (combine (seq k (List.length files)) files) self in
  widgets self' = widgets self ++ map (fun f => ThumbnailWidget_init (os_path_join folder f)) files
  /\ grid_layout self'
     = grid_layout self
       ++ map (fun j => (((k + j) / 4)%nat, ((k + j) mod 4)%nat,
                         ThumbnailCell (List.length (widgets self) + j)))
              (seq 0 (List.length files))
  /\ thumbnail_widgets self'
     = fold_left (fun d jf => dict_set d (os_path_join folder (snd jf)) (fst jf))
                 (combine (seq (List.length (widgets self)) (List.length files)) files)
                 (thumbnail_widgets self)
  /\ current_folder self' = current_folder self
  /\ current_pdfs self' = current_pdfs self
  /\ library_cache_dir self' = library_cache_dir self
  /\ library_thumbnail_size self' = library_thumbnail_size self
  /\ thumbnail_worker self' = thumbnail_worker self
  /\ progress_visible self' = progress_visible self
  /\ progress_value self' = progress_value self
  /\ thumbnail_page_spin self' = thumbnail_page_spin self.
Proof.
  induction files as [|f files IH]; intros k self; cbn zeta.
  - cbn. rewrite !app_nil_r. repeat split.
  - cbn [List.length seq combine fold_left].
    specialize (IH (S k) (add_placeholder folder self (k, f))). cbn zeta in IH.
    destruct IH as (A & B & C & D1 & D2 & D3 & D4 & D5 & D6 & D7 & D8).
    rewrite A, B, C, D1, D2, D3, D4, D5, D6, D7, D8.
    cbn [add_placeholder widgets grid_layout thumbnail_widgets set_thumbnails
         current_folder current_pdfs library_cache_dir library_thumbnail_size
         thumbnail_worker progress_visible progress_value thumbnail_page_spin].
    rewrite <- !app_assoc. cbn [app map fst snd].
    rewrite length_app. cbn [List.length].
    replace (List.length (widgets self) + 1)%nat with (S (List.length (widgets self))) by lia.
    repeat split.
    cbn [seq map]. rewrite <- seq_shift, map_map, !Nat.add_0_r.
    f_equal. f_equal. apply map_ext. intros j.
    rewrite !Nat.add_succ_r. reflexivity.
Qed.



Lemma fold_dict_map (folder : string) (files : list string) :
  forall (k : nat) (d : list (string * nat)),
  fold_left (fun d jf => dict_set d (os_path_join folder (snd jf)) (fst jf))
            (combine (seq k (List.length files)) files) d
  = fold_left (fun d jp => dict_set d (snd jp) (fst jp))
              (combine (seq k (List.length (map (os_path_join folder) files)))
                       (map (os_path_join folder) files)) d.
Proof.
  induction files as [|f files IH]; intros k d; [reflexivity|].
  cbn [List.length map seq combine fold_left fst snd]. apply IH.
Qed.

(** What [load_thumbnails_async] leaves for a list that is not empty. *)
Lemma load_thumbnails_async_shape (self : PDFLibraryWidget) (files : list string)
    (folder : string) (w : world) :
  files <> [] ->
  let self' := fst (load_thumbnails_async self files folder w) in
  let w' := snd (load_thumbnails_async self files folder w) in
  widgets self' = map (fun f => ThumbnailWidget_init (os_path_join folder f)) files
  /\ grid_layout self'
     = map (fun j => ((j / 4)%nat, (j mod 4)%nat, ThumbnailCell j))
           (seq 0 (List.length files))
  /\ thumbnail_widgets self'
     = fold_left (fun d jp => dict_set d (snd jp) (fst jp))
                 (combine (seq 0 (List.length (map (os_path_join folder) files)))
                          (map (os_path_join folder) files)) []
  /\ thumbnail_worker self'
     = Some (start (ThumbnailWorker_init files folder (library_cache_dir self)
                      (library_thumbnail_size self) (thumbnail_page_spin self)) w')
  /\ progress_visible self' = true
  /\ progress_value self' = 0
  /\ current_folder self' = current_folder self
  /\ current_pdfs self' = current_pdfs self
  /\ library_cache_dir self' = library_cache_dir self
  /\ library_thumbnail_size self' = library_thumbnail_size self
  /\ thumbnail_page_spin self' = thumbnail_page_spin self.
Proof.
  intros Hne. unfold load_thumbnails_async.
  set (st := match thumbnail_worker self with
             | Some t =>
                 if isRunning t
                 then (set_thumbnail_worker self (Some (stop_and_wait t w)),
                       env (stop_and_wait t w))
                 else (self, w)
             | None => (self, w)
             end).
  assert (F : current_folder (fst st) = current_folder self
              /\ current_pdfs (fst st) = current_pdfs self
              /\ library_cache_dir (fst st) = library_cache_dir self
              /\ library_thumbnail_size (fst st) = library_thumbnail_size self
              /\ thumbnail_page_spin (fst st) = thumbnail_page_spin self).
  { unfold st. destruct (thumbnail_worker self) as [t|]; [destruct (isRunning t)|];
      repeat split. }
  destruct st as [self1 w1]. cbn [fst] in F. destruct F as (F1 & F2 & F3 & F4 & F5).
  destruct files as [|f files]; [contradiction|]. cbv zeta.
  set (files' := f :: files).
  pose proof (add_placeholders folder files' 0%nat (set_thumbnails self1 [] [] [])) as P.
  cbv zeta in P. unfold enumerate.
  set (self2 := fold_left (add_placeholder folder)
                          (combine (seq 0 (List.length files')) files')
                          (set_thumbnails self1 [] [] [])) in *.
  destruct P as (A & B & C & D1 & D2 & D3 & D4 & D5 & D6 & D7 & D8).
  cbn [fst snd widgets grid_layout thumbnail_widgets thumbnail_worker progress_visible
       progress_value current_folder current_pdfs library_cache_dir library_thumbnail_size
       thumbnail_page_spin set_thumbnail_worker set_progress_bar].
  rewrite A, B, C, D1, D2, D3, D4, D8.
  cbn [widgets grid_layout thumbnail_widgets set_thumbnails current_folder current_pdfs
       library_cache_dir library_thumbnail_size thumbnail_page_spin app List.length].
  rewrite F1, F2, F3, F4, F5, <- fold_dict_map.
  repeat split.
Qed.

Lemma cell_of_inj (i j : nat) :
  ((i / 4)%nat, (i mod 4)%nat) = ((j / 4)%nat, (j mod 4)%nat) -> i = j.
Proof.
  intros E.
  assert (E1 : (i / 4)%nat = (j / 4)%nat) by exact (f_equal fst E).
  assert (E2 : (i mod 4)%nat = (j mod 4)%nat) by exact (f_equal snd E).
  pose proof (Nat.div_mod_eq i 4) as Hi. pose proof (Nat.div_mod_eq j 4) as Hj.
  congruence.
Qed.

Lemma cells_distinct (n : nat) :
  NoDup (map (fun j => ((j / 4)%nat, (j mod 4)%nat)) (seq 0 n)).
Proof.
  assert (G : forall l : list nat, NoDup l ->
              NoDup (map (fun j => ((j / 4)%nat, (j mod 4)%nat)) l)).
  { induction 1 as [|x l Hx Hl IH]; cbn; constructor; [|exact IH].
    intros I. apply in_map_iff in I as (y & E & Hy).
    apply cell_of_inj in E. subst y. exact (Hx Hy). }
  apply G, seq_NoDup.
Qed.

(** X12.  [load_thumbnails_async] lays the files out row by row, four to a
    row, in the order of the list: the file of index [i] gets a widget of
    its own, still without thumbnail, in row [i // 4] and column [i % 4];
    no two widgets share a cell and no column beyond the fourth is used. *)
Theorem grid_is_filled_row_by_row (self : PDFLibraryWidget) (files : list string)
    (folder : string) (w : world) :
  files <> [] ->
  (forall i f, nth_error files i = Some f ->
     nth_error (grid_layout (fst (load_thumbnails_async self files folder w))) i
     = Some ((i / 4)%nat, (i mod 4)%nat, ThumbnailCell i)
     /\ nth_error (widgets (fst (load_thumbnails_async self files folder w))) i
        = Some (Widget (os_path_join folder f) None))
  /\ List.length (grid_layout (fst (load_thumbnails_async self files folder w)))
     = List.length files
  /\ NoDup (map fst (grid_layout (fst (load_thumbnails_async self files folder w))))
  /\ Forall (fun c => (snd (fst c) < 4)%nat)
            (grid_layout (fst (load_thumbnails_async self files folder w))).
Proof.
  intros Hne.
  destruct (load_thumbnails_async_shape self files folder w Hne) as (A & B & _).
  rewrite A, B. repeat split.
  - rewrite nth_error_map, nth_error_seq.
    assert (L : (i < List.length files)%nat) by (apply nth_error_Some; congruence).
    destruct (Nat.ltb_spec i (List.length files)); [reflexivity | lia].
  - rewrite nth_error_map, H. reflexivity.
  - rewrite length_map, length_seq. reflexivity.
  - rewrite map_map. cbn [fst]. apply cells_distinct.
  - apply Forall_forall. intros c I. apply in_map_iff in I as (j & <- & _). cbn [fst snd].
    apply Nat.mod_upper_bound. discriminate.
Qed.

Lemma grid_is_filled_row_by_row_witness :
  (forall i f, nth_error ["a.pdf"; "b.pdf"] i = Some f ->
     nth_error (grid_layout (fst (load_thumbnails_async PDFLibraryWidget_init
                                    ["a.pdf"; "b.pdf"] "lib" Sample.library))) i
     = Some ((i / 4)%nat, (i mod 4)%nat, ThumbnailCell i)
     /\ nth_error (widgets (fst (load_thumbnails_async PDFLibraryWidget_init
                                   ["a.pdf"; "b.pdf"] "lib" Sample.library))) i
        = Some (Widget (os_path_join "lib" f) None))
  /\ List.length (grid_layout (fst (load_thumbnails_async PDFLibraryWidget_init
                                      ["a.pdf"; "b.pdf"] "lib" Sample.library)))
     = List.length ["a.pdf"; "b.pdf"]
  /\ NoDup (map fst (grid_layout (fst (load_thumbnails_async PDFLibraryWidget_init
                                         ["a.pdf"; "b.pdf"] "lib" Sample.library))))
  /\ Forall (fun c => (snd (fst c) < 4)%nat)
            (grid_layout (fst (load_thumbnails_async PDFLibraryWidget_init
                                 ["a.pdf"; "b.pdf"] "lib" Sample.library))).
Proof.
  apply (grid_is_filled_row_by_row PDFLibraryWidget_init ["a.pdf"; "b.pdf"] "lib"
           Sample.library).
  discriminate.
Defined.

(** *** Signals reaching the library *)








Lemma filled_from_more (l : list signal) (s : signal) (self : PDFLibraryWidget) (p : string) :
  filled_from l self p -> filled_from (l ++ [s]) self p.
Proof.
  intros (id & x & img & A & B & C & D & E).
  exists id, x, img. repeat split; try assumption. apply in_or_app. left. exact E.
Qed.










(** *** The listing of a folder and the search *)


Lemma insert_perm (x : string) (l : list string) : Permutation (insert x l) (x :: l).
Proof.
  induction l as [|y l IH]; cbn [insert]; [reflexivity|].
  destruct (String.leb x y); [reflexivity|].
  rewrite IH. apply perm_swap.
Qed.

Lemma sort_perm (l : list string) : Permutation (sort l) l.
Proof.
  induction l as [|x l IH]; cbn [sort]; [reflexivity|].
  rewrite insert_perm, IH. reflexivity.
Qed.

Lemma insert_sorted (x : string) (l : list string) :
  Sorted (fun a b => String.leb a b = true) l ->
  Sorted (fun a b => String.leb a b = true) (insert x l).
Proof.
  induction 1 as [|y l Hl IH Hy]; cbn [insert]; [repeat constructor|].
  destruct (String.leb x y) eqn:E.
  - constructor; [constructor; assumption | constructor; exact E].
  - constructor; [exact IH|].
    assert (Eyx : String.leb y x = true).
    { destruct (String.leb_total x y) as [T|T]; [congruence | exact T]. }
    destruct l as [|z l]; cbn [insert]; [constructor; exact Eyx|].
    destruct (String.leb x z); constructor; [exact Eyx|].
    inversion Hy; assumption.
Qed.

Lemma sort_sorted (l : list string) : Sorted (fun a b => String.leb a b = true) (sort l).
Proof.
  induction l as [|x l IH]; cbn [sort]; [constructor | apply insert_sorted, IH].
Qed.

(** What [load_thumbnails_async] keeps and shows, for every list. *)
Lemma load_thumbnails_async_frame (self : PDFLibraryWidget) (files : list string)
    (folder : string) (w : world) :
  current_folder (fst (load_thumbnails_async self files folder w)) = current_folder self
  /\ current_pdfs (fst (load_thumbnails_async self files folder w)) = current_pdfs self
  /\ map widget_pdf_path (widgets (fst (load_thumbnails_async self files folder w)))
     = map (os_path_join folder) files.
Proof.
  destruct files as [|f files].
  - unfold load_thumbnails_async.
    destruct (thumbnail_worker self) as [t|]; [destruct (isRunning t)|]; repeat split.
  - destruct (load_thumbnails_async_shape self (f :: files) folder w ltac:(discriminate))
      as (A & _ & _ & _ & _ & _ & B & C & _).
    rewrite A, B, C, map_map. repeat split.
Qed.

(** X14.  The library lists a folder as its PDF files in ascending order:
    after [load_pdfs_from_folder], [current_pdfs] is sorted and holds
    exactly the names of the listing that end in [.pdf], in whatever case,
    and are files; a name listed once is there once; and the grid has one
    widget for each, in that order. *)
Theorem folder_listing_is_sorted (fs : folders) (self : PDFLibraryWidget) (folder : string)
    (w : world) (names : list string) :
  os_listdir fs folder = Return names ->
  Sorted (fun a b => String.leb a b = true)
         (current_pdfs (fst (load_pdfs_from_folder fs self folder w)))
  /\ (forall f, In f (current_pdfs (fst (load_pdfs_from_folder fs self folder w)))
                <-> In f names
                    /\ endswith (lower f) ".pdf" = true
                    /\ os_path_isfile fs (os_path_join folder f) = true)
  /\ (NoDup names -> NoDup (current_pdfs (fst (load_pdfs_from_folder fs self folder w))))
  /\ map widget_pdf_path (widgets (fst (load_pdfs_from_folder fs self folder w)))
     = map (os_path_join folder)
           (current_pdfs (fst (load_pdfs_from_folder fs self folder w))).
Proof.
  intros E. unfold load_pdfs_from_folder. rewrite E.
  set (ok := fun f => endswith (lower f) ".pdf" && os_path_isfile fs (os_path_join folder f)).
  destruct (load_thumbnails_async_frame (set_current_pdfs self (sort (filter ok names)))
              (sort (filter ok names)) folder w) as (_ & B & C).
  rewrite B, C. cbn [current_pdfs set_current_pdfs]. repeat split.
  - apply sort_sorted.
  - apply (Permutation_in _ (sort_perm _)) in H. apply filter_In in H. tauto.
  - apply (Permutation_in _ (sort_perm _)) in H. apply filter_In in H as [_ H].
    unfold ok in H. apply andb_true_iff in H. tauto.
  - apply (Permutation_in _ (sort_perm _)) in H. apply filter_In in H as [_ H].
    unfold ok in H. apply andb_true_iff in H. tauto.
  - intros (I & A1 & A2). apply (Permutation_in _ (Permutation_sym (sort_perm _))).
    apply filter_In. split; [exact I|]. unfold ok. rewrite A1, A2. reflexivity.
  - intros ND. apply (Permutation_NoDup (Permutation_sym (sort_perm _))).
    apply NoDup_filter, ND.
Qed.

Lemma folder_listing_is_sorted_witness :
  Sorted (fun a b => String.leb a b = true)
         (current_pdfs (fst (load_pdfs_from_folder sample_folders PDFLibraryWidget_init
                               "lib" Sample.library)))
  /\ (forall f, In f (current_pdfs (fst (load_pdfs_from_folder sample_folders
                                            PDFLibraryWidget_init "lib" Sample.library)))
                <-> In f ["b.pdf"; "notes.txt"; "a.pdf"; "Scans.PDF"; "old.pdf"]
                    /\ endswith (lower f) ".pdf" = true
                    /\ os_path_isfile sample_folders (os_path_join "lib" f) = true)
  /\ (NoDup ["b.pdf"; "notes.txt"; "a.pdf"; "Scans.PDF"; "old.pdf"] ->
      NoDup (current_pdfs (fst (load_pdfs_from_folder sample_folders PDFLibraryWidget_init
                                  "lib" Sample.library))))
  /\ map widget_pdf_path
         (widgets (fst (load_pdfs_from_folder sample_folders PDFLibraryWidget_init
                          "lib" Sample.library)))
     = map (os_path_join "lib")
           (current_pdfs (fst (load_pdfs_from_folder sample_folders PDFLibraryWidget_init
                                 "lib" Sample.library))).
Proof.
  apply (folder_listing_is_sorted sample_folders PDFLibraryWidget_init "lib" Sample.library).
  reflexivity.
Defined.

Lemma on_search_term (fs : folders) (self : PDFLibraryWidget) (text : string) (w : world) :
  has_folder self = true -> lower text <> "" ->
  on_search fs self text w
  = load_thumbnails_async self
      (filter (fun f => contains (lower text) (lower f)) (current_pdfs self))
      (current_folder self) w.
Proof.
  intros Hf Ht. unfold on_search. rewrite Hf.
  destruct (String.eqb_spec (lower text) "") as [E|_]; [contradiction | reflexivity].
Qed.

Lemma searches_keep (fs : folders) (texts : list string) :
  Forall (fun text => lower text <> "") texts ->
  forall st, has_folder (fst st) = true ->
  current_folder (fst (searches fs texts st)) = current_folder (fst st)
  /\ current_pdfs (fst (searches fs texts st)) = current_pdfs (fst st).
Proof.
  induction 1 as [|text texts Ht _ IH]; intros st Hf; [split; reflexivity|].
  unfold searches. cbn [fold_left]. fold (searches fs texts (on_search fs (fst st) text (snd st))).
  rewrite (on_search_term fs (fst st) text (snd st) Hf Ht).
  destruct (load_thumbnails_async_frame (fst st)
              (filter (fun f => contains (lower text) (lower f)) (current_pdfs (fst st)))
              (current_folder (fst st)) (snd st)) as (A & B & _).
  destruct (IH (load_thumbnails_async (fst st)
              (filter (fun f => contains (lower text) (lower f)) (current_pdfs (fst st)))
              (current_folder (fst st)) (snd st))) as [A' B'].
  { unfold has_folder in *. rewrite A. exact Hf. }
  rewrite A', B', A, B. split; reflexivity.
Qed.

(** X15.  A search filters the whole listing, not what the search before
    left: after any number of searches [current_pdfs] and the folder are
    as they were, and the grid shows, in the order of the listing, the
    files whose lower-cased name contains the lower-cased text of the last
    search. *)
Theorem search_filters_the_whole_listing (fs : folders) (self : PDFLibraryWidget)
    (w : world) (texts : list string) (text : string) :
  has_folder self = true ->
  Forall (fun text => lower text <> "") (texts ++ [text]) ->
  current_folder (fst (searches fs (texts ++ [text]) (self, w))) = current_folder self
  /\ current_pdfs (fst (searches fs (texts ++ [text]) (self, w))) = current_pdfs self
  /\ map widget_pdf_path (widgets (fst (searches fs (texts ++ [text]) (self, w))))
     = map (os_path_join (current_folder self))
           (filter (fun f => contains (lower text) (lower f)) (current_pdfs self)).
Proof.
  intros Hf Ht.
  destruct (searches_keep fs (texts ++ [text]) Ht (self, w) Hf) as [A B].
  split; [exact A|]. split; [exact B|].
  apply Forall_app in Ht as [Ht1 Ht2].
  destruct (searches_keep fs texts Ht1 (self, w) Hf) as [A1 B1]. cbn [fst] in A1, B1.
  unfold searches in *. rewrite fold_left_app. cbn [fold_left].
  set (st := fold_left (fun st text => on_search fs (fst st) text (snd st)) texts (self, w)) in *.
  assert (Hf' : has_folder (fst st) = true) by (unfold has_folder in *; rewrite A1; exact Hf).
  rewrite (on_search_term fs (fst st) text (snd st) Hf' ltac:(inversion Ht2; assumption)).
  destruct (load_thumbnails_async_frame (fst st)
              (filter (fun f => contains (lower text) (lower f)) (current_pdfs (fst st)))
              (current_folder (fst st)) (snd st)) as (_ & _ & C).
  rewrite C, A1, B1. reflexivity.
Qed.

Lemma search_filters_the_whole_listing_witness :
  current_folder (fst (searches sample_folders (["B"] ++ ["Sc"]) sample_library))
  = current_folder (fst sample_library)
  /\ current_pdfs (fst (searches sample_folders (["B"] ++ ["Sc"]) sample_library))
     = current_pdfs (fst sample_library)
  /\ map widget_pdf_path
         (widgets (fst (searches sample_folders (["B"] ++ ["Sc"]) sample_library)))
     = map (os_path_join (current_folder (fst sample_library)))
           (filter (fun f => contains (lower "Sc") (lower f))
                   (current_pdfs (fst sample_library))).
Proof.
  apply (search_filters_the_whole_listing sample_folders (fst sample_library)
           (snd sample_library) ["B"] "Sc").
  - vm_compute. reflexivity.
  - repeat constructor; discriminate.
Defined.

(** X16.  A folder that cannot be listed is still made the current folder:
    [open_folder] shows the error and keeps the old list of files and the
    old grid, and a search after that pairs the names of the old folder
    with the new one. *)
Theorem unlistable_folder_keeps_old_files (fs : folders) (self : PDFLibraryWidget)
    (folder text : string) (w : world) (e : exn) :
  os_listdir fs folder = Raise e ->
  folder <> "" ->
  lower text <> "" ->
  current_folder (fst (open_folder fs self folder w)) = folder
  /\ current_pdfs (fst (open_folder fs self folder w)) = current_pdfs self
  /\ widgets (fst (open_folder fs self folder w)) = widgets self
  /\ grid_layout (fst (open_folder fs self folder w)) = grid_layout self
  /\ thumbnail_worker (fst (open_folder fs self folder w)) = thumbnail_worker self
  /\ dialogs (snd (open_folder fs self folder w))
     = dialogs w ++ [Critical "Error" ("Could not load PDFs: " ++ exn_msg e)]
  /\ signals (snd (open_folder fs self folder w)) = signals w
  /\ map widget_pdf_path
         (widgets (fst (on_search fs (fst (open_folder fs self folder w)) text
                          (snd (open_folder fs self folder w)))))
     = map (os_path_join folder)
           (filter (fun f => contains (lower text) (lower f)) (current_pdfs self)).
Proof.
  intros E Hf Ht.
  assert (O : open_folder fs self folder w
              = (set_current_folder self folder,
                 snd (QMessageBox_critical "Error" ("Could not load PDFs: " ++ exn_msg e) w))).
  { unfold open_folder, load_pdfs_from_folder. rewrite E.
    destruct (String.eqb_spec folder "") as [->|_]; [contradiction | reflexivity]. }
  rewrite O. cbn [fst snd]. repeat split.
  rewrite on_search_term; [| |exact Ht].
  - destruct (load_thumbnails_async_frame (set_current_folder self folder)
                (filter (fun f => contains (lower text) (lower f))
                        (current_pdfs (set_current_folder self folder)))
                (current_folder (set_current_folder self folder))
                (snd (QMessageBox_critical "Error" ("Could not load PDFs: " ++ exn_msg e) w)))
      as (_ & _ & C).
    rewrite C. reflexivity.
  - unfold has_folder. cbn [current_folder set_current_folder].
    destruct (String.eqb_spec folder "") as [->|_]; [contradiction | reflexivity].
Qed.

Lemma unlistable_folder_keeps_old_files_witness :
  current_folder (fst (open_folder sample_folders (fst sample_library) "gone"
                         (snd sample_library))) = "gone"
  /\ map widget_pdf_path
         (widgets (fst (on_search sample_folders
                          (fst (open_folder sample_folders (fst sample_library) "gone"
                                  (snd sample_library)))
                          "a"
                          (snd (open_folder sample_folders (fst sample_library) "gone"
                                  (snd sample_library))))))
     = ["gone/Scans.PDF"; "gone/a.pdf"].
Proof.
  destruct (unlistable_folder_keeps_old_files sample_folders (fst sample_library) "gone" "a"
              (snd sample_library) (Exn "FileNotFoundError" "gone"))
    as (A & _ & _ & _ & _ & _ & _ & B).
  - reflexivity.
  - discriminate.
  - discriminate.
  - split; [exact A | exact B].
Defined.
